(** * HelloPyGame: the click-marker session and its command-line entry point

    A shallow embedding of [src/hello_pygame/my_game.py] and
    [src/hello_pygame/main.py].

    - Python [int] is [Z]; Python [float] (the readings of [time.time()] and
      [circle_lifetime]) is the kernel's binary64 [float], so that
      [current_time - t < self.circle_lifetime] is the IEEE subtraction and
      comparison the interpreter performs.
    - The outside world (the wall clock, the pygame event queue, the screen,
      the logger) is an explicit [World] threaded through a state monad [M];
      every call into pygame, [time] or the logger is appended to [trace] in
      the order the program makes it.
    - The [while self.running] loop takes a fuel argument that bounds the
      number of iterations. *)

From Stdlib Require Import ZArith List String Bool Lia Floats DecimalString.
Import ListNotations.
Open Scope Z_scope.

(** ** The pygame interface the program uses *)

Module Pygame.

(** An event of the queue. Only [event.type], and for
    [MOUSEBUTTONDOWN] the attributes [event.button] and [event.pos], are
    read by the program. [OTHER] stands for every event type that is neither
    [pygame.QUIT] nor [pygame.MOUSEBUTTONDOWN]. *)
Inductive Event : Type :=
| QUIT
| MOUSEBUTTONDOWN (button : Z) (pos : Z * Z)
| OTHER (type : Z).

Definition Color : Type := Z * Z * Z.

(** One call into pygame, [time] or the logger, with its arguments (and its
    result, for the two calls that read the world). *)
Inductive Call : Type :=
| PygameInit
| DisplaySetMode (size : Z * Z)
| DisplaySetCaption (title : string)
| FontInit
| FontSysFont (name : string) (size : Z)
| TimeClock
| EventGet (result : list Event)
| TimeTime (result : float)
| LoggerInfo (msg : string)
| LoggerError (msg : string)
| ScreenFill (color : Color)
| DrawCircle (color : Color) (center : Z * Z) (radius : Z)
| FontRender (text : string) (antialias : bool) (color : Color)
| ScreenBlit (topright : Z * Z)
| DisplayFlip
| ClockTick (framerate : Z)
| PygameQuit.

End Pygame.
Export Pygame.

(** ** The world and the monad of effects *)

(** [clock n] is what the [n]-th coming call of [time.time()] returns,
    [pending n] what the [n]-th coming call of [pygame.event.get()] returns;
    [trace] lists the calls made so far, oldest first. *)
Record World : Type := mkWorld {
  clock : nat -> float;
  pending : nat -> list Event;
  trace : list Call
}.

Definition M (A : Type) : Type := World -> A * World.

Definition ret {A : Type} (a : A) : M A := fun w => (a, w).

Definition bind {A B : Type} (m : M A) (k : A -> M B) : M B :=
  fun w => let (a, w') := m w in k a w'.

Notation "x <- m ;; k" := (bind m (fun x => k))
  (at level 61, m at next level, right associativity).
Notation "m ;;; k" := (bind m (fun _ => k))
  (at level 61, right associativity).

Definition call (c : Call) : M unit :=
  fun w => (tt, mkWorld (clock w) (pending w) (trace w ++ [c])).

(** [time.time()] *)
Definition time_time : M float :=
  fun w =>
    let t := clock w O in
    (t, mkWorld (fun n => clock w (S n)) (pending w) (trace w ++ [TimeTime t])).

(** [pygame.event.get()] *)
Definition pygame_event_get : M (list Event) :=
  fun w =>
    let evs := pending w O in
    (evs, mkWorld (clock w) (fun n => pending w (S n)) (trace w ++ [EventGet evs])).

(** A [for] loop over a list whose body updates one object. *)
Fixpoint for_each {A S : Type} (body : A -> S -> M S) (l : list A) (s : S) : M S :=
  match l with
  | [] => ret s
  | a :: l' => s' <- body a s ;; for_each body l' s'
  end.

(** [str(n)] for a Python [int]. *)
Definition str (n : Z) : string := NilZero.string_of_int (Z.to_int n).

(** ** [my_game.py]: class [MyGame] *)

(** A click: [(x, y, timestamp)]. *)
Definition Click : Type := Z * Z * float.

Definition click_time (c : Click) : float := snd c.

(** The attributes of a [MyGame] object. [self.logger], [self.screen] and
    [self.font] are handles into the world and carry no data of their own. *)
Record MyGame : Type := mkMyGame {
  width : Z;
  height : Z;
  circle_lifetime : float;
  clicks : list Click;
  click_count : Z;
  bg_color : Color;
  text_color : Color;
  circle_color : Color;
  running : bool
}.

Definition set_clicks (l : list Click) (g : MyGame) : MyGame :=
  mkMyGame (width g) (height g) (circle_lifetime g) l (click_count g)
           (bg_color g) (text_color g) (circle_color g) (running g).

Definition set_click_count (n : Z) (g : MyGame) : MyGame :=
  mkMyGame (width g) (height g) (circle_lifetime g) (clicks g) n
           (bg_color g) (text_color g) (circle_color g) (running g).

Definition set_running (b : bool) (g : MyGame) : MyGame :=
  mkMyGame (width g) (height g) (circle_lifetime g) (clicks g) (click_count g)
           (bg_color g) (text_color g) (circle_color g) b.

(** [MyGame.__init__(self, width=800, height=600, circle_lifetime=3.0)] *)
Definition __init__ (width height : Z) (circle_lifetime : float) : M MyGame :=
  call PygameInit ;;;
  call (DisplaySetMode (width, height)) ;;;
  call (DisplaySetCaption "PyGame Circle Click Example") ;;;
  call FontInit ;;;
  call (FontSysFont "Arial" 24) ;;;
  ret (mkMyGame width height circle_lifetime [] 0
                (30, 30, 30) (255, 255, 255) (255, 0, 0) true).

Definition default_width : Z := 800.
Definition default_height : Z := 600.
Definition default_circle_lifetime : float := 3.0%float.

(** The body of [for event in pygame.event.get():] in [MyGame.run]. *)
Definition handle_event (event : Event) (self : MyGame) : M MyGame :=
  match event with
  | QUIT => ret (set_running false self)
  | MOUSEBUTTONDOWN button (x, y) =>
      if button =? 1 then
        now <- time_time ;;
        let self := set_clicks (clicks self ++ [(x, y, now)]) self in
        let self := set_click_count (click_count self + 1) self in
        call (LoggerInfo ("Left click registered at: (" ++ str x ++ ", " ++ str y ++ ")")) ;;;
        ret self
      else if button =? 3 then
        let self := set_clicks [] self in
        let self := set_click_count 0 self in
        call (LoggerInfo "Right click detected, state reset.") ;;;
        ret self
      else ret self
  | OTHER _ => ret self
  end.

(** The whole [for] loop over one drained batch. *)
Definition handle_events (events : list Event) (self : MyGame) : M MyGame :=
  for_each handle_event events self.

(** [MyGame._update_circles(self)] *)
Definition _update_circles (self : MyGame) : M MyGame :=
  current_time <- time_time ;;
  ret (set_clicks
         (filter (fun c : Click =>
                    let '(x, y, t) := c in
                    (current_time - t <? circle_lifetime self)%float)
                 (clicks self))
         self).

(** [MyGame._draw(self)]; it changes no attribute of [self]. *)
Definition _draw (self : MyGame) : M unit :=
  call (ScreenFill (bg_color self)) ;;;
  for_each (fun (c : Click) (_ : unit) =>
              let '(x, y, _) := c in
              call (DrawCircle (circle_color self) (x, y) 20))
           (clicks self) tt ;;;
  call (FontRender ("Clicks: " ++ str (click_count self)) true (text_color self)) ;;;
  call (ScreenBlit (width self - 10, 10)) ;;;
  call DisplayFlip.

(** One pass through the body of [while self.running:]. *)
Definition iteration (self : MyGame) : M MyGame :=
  events <- pygame_event_get ;;
  self <- handle_events events self ;;
  self <- _update_circles self ;;
  _draw self ;;;
  call (ClockTick 60) ;;;
  ret self.

(** [while self.running: ...] followed by [pygame.quit()]. [None] when the
    loop is still running after [fuel] iterations. *)
Fixpoint run_loop (fuel : nat) (self : MyGame) : M (option MyGame) :=
  if running self then
    match fuel with
    | O => ret None
    | S fuel' => self' <- iteration self ;; run_loop fuel' self'
    end
  else
    call PygameQuit ;;;
    ret (Some self).

(** [MyGame.run(self)] *)
Definition run (fuel : nat) (self : MyGame) : M (option MyGame) :=
  call (LoggerInfo "Running MyGame") ;;;
  call TimeClock ;;;
  run_loop fuel self.

(** ** [main.py]: the command-line entry point *)

Module Cli.

(** What a Python call can raise here: an instance of
    [py_app_dev.core.exceptions.UserNotificationException], carrying its
    message, or an exception of any other class ([SystemExit],
    [KeyboardInterrupt], [pygame.error], ...). *)
Inductive PyException : Type :=
| UserNotificationException (msg : string)
| OtherException (class_name : string) (msg : string).

Inductive Result (A : Type) : Type :=
| Returned (a : A)
| Raised (e : PyException).
Arguments Returned {A} a.
Arguments Raised {A} e.

(** Effects that may raise. *)
Definition E (A : Type) : Type := World -> Result A * World.

Definition eret {A : Type} (a : A) : E A := fun w => (Returned a, w).

Definition raise {A : Type} (e : PyException) : E A := fun w => (Raised e, w).

Definition ebind {A B : Type} (m : E A) (k : A -> E B) : E B :=
  fun w =>
    match m w with
    | (Returned a, w') => k a w'
    | (Raised e, w') => (Raised e, w')
    end.

Definition lift {A : Type} (m : M A) : E A :=
  fun w => let (a, w') := m w in (Returned a, w').

(** [try: body  except UserNotificationException as e: handler(e)] *)
Definition try_except_UserNotificationException {A : Type}
    (body : E A) (handler : string -> E A) : E A :=
  fun w =>
    match body w with
    | (Returned a, w') => (Returned a, w')
    | (Raised (UserNotificationException msg), w') => handler msg w'
    | (Raised e, w') => (Raised e, w')
    end.

(** [main() -> int]. [setup_logger] and [app] (the Typer application, which
    parses [sys.argv] and dispatches to the [run] command) are library
    calls, taken as arbitrary effects that return or raise. *)
Definition main (setup_logger app : E unit) : E Z :=
  try_except_UserNotificationException
    (ebind setup_logger (fun _ =>
     ebind app (fun _ =>
     eret 0)))
    (fun e =>
       ebind (lift (call (LoggerError e))) (fun _ =>
       eret 1)).

(** The statements of the [try] block, up to [return 0]. *)
Definition try_block (setup_logger app : E unit) : E unit :=
  ebind setup_logger (fun _ => app).

Definition is_UserNotificationException (e : PyException) : bool :=
  match e with
  | UserNotificationException _ => true
  | OtherException _ _ => false
  end.

End Cli.

(** ** Vocabulary of the properties *)

Definition is_left_click (e : Event) : bool :=
  match e with
  | MOUSEBUTTONDOWN button _ => button =? 1
  | _ => false
  end.

Definition is_right_click (e : Event) : bool :=
  match e with
  | MOUSEBUTTONDOWN button _ => button =? 3
  | _ => false
  end.

Definition is_quit (e : Event) : bool :=
  match e with
  | QUIT => true
  | _ => false
  end.

Definition count_left_clicks (events : list Event) : nat :=
  List.length (filter is_left_click events).

Definition has_right_click (events : list Event) : bool :=
  existsb is_right_click events.

Definition has_quit (events : list Event) : bool :=
  existsb is_quit events.

(** The markers a batch of events is expected to leave when nothing resets:
    one per left click, in order, stamped with the successive clock
    readings. *)
Fixpoint left_click_markers (events : list Event) (clk : nat -> float) : list Click :=
  match events with
  | [] => []
  | e :: rest =>
      if is_left_click e then
        match e with
        | MOUSEBUTTONDOWN _ (x, y) =>
            (x, y, clk O) :: left_click_markers rest (fun n => clk (S n))
        | _ => left_click_markers rest clk
        end
      else left_click_markers rest clk
  end.

(** A marker is young at [now] when [now - created_at < lifetime]. *)
Definition young (now lifetime : float) (c : Click) : Prop :=
  (now - click_time c <? lifetime)%float = true.

(** The test of the list comprehension of [_update_circles]. *)
Definition survives (current_time lifetime : float) (c : Click) : bool :=
  let '(x, y, t) := c in (current_time - t <? lifetime)%float.

(** [Survive keep l l']: [l'] is [l] with exactly the elements satisfying
    [keep] retained, each occurrence once and in the order of [l]. *)
Inductive Survive {A : Type} (keep : A -> Prop) : list A -> list A -> Prop :=
| Survive_nil : Survive keep [] []
| Survive_keep a l l' : keep a -> Survive keep l l' -> Survive keep (a :: l) (a :: l')
| Survive_drop a l l' : ~ keep a -> Survive keep l l' -> Survive keep (a :: l) l'.

(** The steps of a session. *)
Inductive Step : Type :=
| HandleEvent (event : Event)
| UpdateCircles
| Draw.

Definition step (s : Step) (self : MyGame) : M MyGame :=
  match s with
  | HandleEvent event => handle_event event self
  | UpdateCircles => _update_circles self
  | Draw => _draw self ;;; ret self
  end.

Definition steps (l : list Step) (self : MyGame) : M MyGame :=
  for_each step l self.

Definition is_reset_step (s : Step) : bool :=
  match s with
  | HandleEvent event => is_right_click event
  | _ => false
  end.

Definition is_left_click_step (s : Step) : bool :=
  match s with
  | HandleEvent event => is_left_click event
  | _ => false
  end.

Definition count_left_click_steps (l : list Step) : nat :=
  List.length (filter is_left_click_step l).

(** The number of markers is at most the number of clicks counted. *)
Definition markers_within_count (self : MyGame) : Prop :=
  Z.of_nat (List.length (clicks self)) <= click_count self.

(** The calls made between two worlds of one execution. *)
Definition trace_since (w w' : World) : list Call :=
  skipn (List.length (trace w)) (trace w').

Definition is_flip (c : Call) : bool :=
  match c with
  | DisplayFlip => true
  | _ => false
  end.

Definition is_event_get (c : Call) : bool :=
  match c with
  | EventGet _ => true
  | _ => false
  end.

(** Calls that neither read the event queue nor present a frame. *)
Definition silent (c : Call) : bool :=
  negb (is_flip c) && negb (is_event_get c).

(** The number of frames presented in a trace. *)
Definition count_frames (tr : list Call) : nat :=
  List.length (filter is_flip tr).

(** The number of frames presented after the first [pygame.event.get()] that
    delivered a quit event; [None] when no quit event was delivered. The
    batch is handled entirely before anything is drawn, so every frame counted
    is drawn after the quit event was processed. *)
Fixpoint frames_after_quit (tr : list Call) : option nat :=
  match tr with
  | [] => None
  | EventGet events :: tr' =>
      if has_quit events then Some (count_frames tr') else frames_after_quit tr'
  | _ :: tr' => frames_after_quit tr'
  end.

(** A session that receives a quit event in its first batch. *)
Definition quit_at_once : World :=
  mkWorld (fun _ => 0%float) (fun _ => [QUIT]) [].

Definition fresh_game : MyGame :=
  mkMyGame default_width default_height default_circle_lifetime [] 0
           (30, 30, 30) (255, 255, 255) (255, 0, 0) true.

(** ** The script entry of [my_game.py] and further vocabulary *)

(** [if __name__ == "__main__": game = MyGame(); game.run()], with the
    defaults of [__init__]. *)
Definition my_game_main (fuel : nat) : M (option MyGame) :=
  game <- __init__ default_width default_height default_circle_lifetime ;;
  run fuel game.

(** Events the loop body has no branch for: neither a quit, nor a press of
    button 1 or 3. *)
Definition is_ignored (e : Event) : bool :=
  negb (is_quit e) && negb (is_left_click e) && negb (is_right_click e).

(** The positions of the left clicks of a batch, in order. *)
Fixpoint left_click_positions (events : list Event) : list (Z * Z) :=
  match events with
  | [] => []
  | MOUSEBUTTONDOWN button pos :: rest =>
      if button =? 1 then pos :: left_click_positions rest
      else left_click_positions rest
  | _ :: rest => left_click_positions rest
  end.

Definition click_pos (c : Click) : Z * Z := fst c.

(** The calls of one frame showing the state [self]. *)
Definition frame_of (self : MyGame) : list Call :=
  ScreenFill (bg_color self)
  :: map (fun c : Click => DrawCircle (circle_color self) (click_pos c) 20) (clicks self)
  ++ [FontRender ("Clicks: " ++ str (click_count self)) true (text_color self);
      ScreenBlit (width self - 10, 10);
      DisplayFlip].

Definition is_tick (c : Call) : bool :=
  match c with
  | ClockTick _ => true
  | _ => false
  end.

Definition count_calls (p : Call -> bool) (tr : list Call) : nat :=
  List.length (filter p tr).

(** The attributes no method assigns after [__init__]. *)
Definition same_configuration (a b : MyGame) : Prop :=
  width a = width b /\ height a = height b
  /\ circle_lifetime a = circle_lifetime b
  /\ bg_color a = bg_color b /\ text_color a = text_color b
  /\ circle_color a = circle_color b.

(** The left clicks handled in a session of steps. *)
Fixpoint session_left_clicks (l : list Step) : list (Z * Z) :=
  match l with
  | [] => []
  | HandleEvent (MOUSEBUTTONDOWN button pos) :: rest =>
      if button =? 1 then pos :: session_left_clicks rest
      else session_left_clicks rest
  | _ :: rest => session_left_clicks rest
  end.

(** Calls that only read the clock or write to the log. *)
Definition is_time_or_log (c : Call) : bool :=
  match c with
  | TimeTime _ | LoggerInfo _ => true
  | _ => false
  end.

Definition is_quit_step (s : Step) : bool :=
  match s with
  | HandleEvent event => is_quit event
  | _ => false
  end.

Definition is_pygame_quit (c : Call) : bool :=
  match c with
  | PygameQuit => true
  | _ => false
  end.

(** The calls that pace the loop: reading a batch, presenting a frame,
    ticking the clock, and shutting pygame down. *)
Definition milestone (c : Call) : bool :=
  is_event_get c || is_flip c || is_tick c || is_pygame_quit c.

(** [n] full rounds of the loop over the batches [first], [first + 1], ...
    of the queue [queue]. *)
Definition rounds (queue : nat -> list Event) (first n : nat) : list Call :=
  flat_map (fun i => [EventGet (queue i); DisplayFlip; ClockTick 60]) (seq first n).

(** [k] passes through the body of the loop, one after the other: the game
    and the world at the head of the loop after [k] iterations. *)
Fixpoint iterate (k : nat) (self : MyGame) : M MyGame :=
  match k with
  | O => ret self
  | S k' => self' <- iteration self ;; iterate k' self'
  end.

(** The calls that put something on the screen. *)
Definition is_draw_call (c : Call) : bool :=
  match c with
  | ScreenFill _ | DrawCircle _ _ _ | FontRender _ _ _ | ScreenBlit _ | DisplayFlip => true
  | _ => false
  end.

(** A session whose second batch holds a quit event between two left
    clicks; the clock reads 0, 1, 2, ... *)
Definition quit_mid_batch : World :=
  mkWorld (fun n => of_uint63 (Uint63.of_nat n))
          (fun n => match n with
                    | O => [MOUSEBUTTONDOWN 1 (10, 10)]
                    | _ => [MOUSEBUTTONDOWN 1 (1, 1); QUIT; MOUSEBUTTONDOWN 1 (2, 2)]
                    end)
          [].

(** * Properties *)

(** ** The expiration step *)

Lemma survives_young now lifetime c :
  survives now lifetime c = true <-> young now lifetime c.
Proof. destruct c as [[x y] t]; unfold young; simpl; tauto. Qed.

Lemma update_circles_unfold self w :
  _update_circles self w =
  (set_clicks (filter (survives (clock w O) (circle_lifetime self)) (clicks self)) self,
   mkWorld (fun n => clock w (S n)) (pending w)
           (trace w ++ [TimeTime (clock w O)])).
Proof. reflexivity. Qed.

Lemma filter_Survive {A : Type} (p : A -> bool) (l : list A) :
  Survive (fun a => p a = true) l (filter p l).
Proof.
  induction l as [|a l IH]; simpl.
  - constructor.
  - destruct (p a) eqn:Ha.
    + now apply Survive_keep.
    + apply Survive_drop; [congruence | exact IH].
Qed.

Lemma Survive_iff {A : Type} (P Q : A -> Prop) (l l' : list A) :
  (forall a, P a <-> Q a) -> Survive P l l' -> Survive Q l l'.
Proof.
  intros HPQ H; induction H.
  - constructor.
  - apply Survive_keep; [now apply HPQ | assumption].
  - apply Survive_drop; [rewrite <- HPQ | ]; assumption.
Qed.

(** [Survive keep l] determines its result. *)
Lemma Survive_functional {A : Type} (keep : A -> Prop) (l l1 l2 : list A) :
  Survive keep l l1 -> Survive keep l l2 -> l1 = l2.
Proof.
  intros H1; revert l2.
  induction H1; intros l2 H2; inversion H2; subst;
    try reflexivity; try contradiction.
  - f_equal; auto.
  - auto.
Qed.

(** IEEE comparison: operands that compare equal do not compare less. *)
Lemma float_eqb_not_ltb (a b : float) :
  (a =? b)%float = true -> (a <? b)%float = false.
Proof.
  rewrite eqb_spec, ltb_spec; unfold SFeqb, SFltb.
  destruct (SFcompare (Prim2SF a) (Prim2SF b)) as [[ | | ]|]; congruence.
Qed.

(** C1. The expiration step [_update_circles], from any game state and at any
    clock reading [now], keeps exactly the markers with
    [now - created_at < lifetime]: a marker is in the new list iff it was in
    the old one and is young; the new list is the old one with the young
    markers retained in their order; and a marker whose age equals the
    lifetime is not retained (the comparison is strict). *)
Theorem update_circles_keeps_exactly_the_young (self : MyGame) (w : World) :
  let now := clock w O in
  let self' := fst (_update_circles self w) in
  (forall c, In c (clicks self') <->
             In c (clicks self) /\ young now (circle_lifetime self) c)
  /\ Survive (young now (circle_lifetime self)) (clicks self) (clicks self')
  /\ (forall c, (now - click_time c =? circle_lifetime self)%float = true ->
                ~ In c (clicks self')).
Proof.
  cbv zeta; rewrite update_circles_unfold; simpl.
  split; [|split].
  - intro c; rewrite filter_In, survives_young; tauto.
  - eapply Survive_iff; [|apply filter_Survive].
    intro c; apply survives_young.
  - intros c Heq Hin.
    apply filter_In in Hin; destruct Hin as [_ Hs].
    apply survives_young in Hs; unfold young in Hs.
    apply float_eqb_not_ltb in Heq; congruence.
Qed.

(** C5. The expiration step is idempotent: when the clock reads the same
    value at both calls (no time elapsed), a second [_update_circles] leaves
    the game, and so [markers], as the first one left it. *)
Theorem update_circles_idempotent (self : MyGame) (w : World) :
  clock w 1%nat = clock w 0%nat ->
  let (self1, w1) := _update_circles self w in
  let (self2, w2) := _update_circles self1 w1 in
  clicks self2 = clicks self1 /\ self2 = self1.
Proof.
  intro Hclock.
  rewrite update_circles_unfold, update_circles_unfold; cbn [clock circle_lifetime set_clicks clicks].
  rewrite Hclock.
  assert (Hf : forall (p : Click -> bool) l, filter p (filter p l) = filter p l).
  { intros p l; induction l as [|a l IH]; simpl; [reflexivity|].
    destruct (p a) eqn:Ha; simpl; [rewrite Ha, IH|]; auto. }
  unfold set_clicks; cbn; rewrite Hf; auto.
Qed.

Lemma update_circles_idempotent_witness :
  let w := mkWorld (fun _ => 3.5%float) (fun _ => [])  [] in
  let self := set_clicks [(10, 10, 0%float); (20, 20, 1%float)] fresh_game in
  clock w 1%nat = clock w 0%nat /\
  clicks (fst (_update_circles self w)) = [(20, 20, 1%float)] /\
  let (self1, w1) := _update_circles self w in
  let (self2, w2) := _update_circles self1 w1 in
  clicks self2 = clicks self1 /\ self2 = self1.
Proof.
  cbv zeta; split; [reflexivity|split; [vm_compute; reflexivity|]].
  apply (update_circles_idempotent
           (set_clicks [(10, 10, 0%float); (20, 20, 1%float)] fresh_game)
           (mkWorld (fun _ => 3.5%float) (fun _ => []) [])).
  reflexivity.
Defined.

(** C8. The expiration step changes only [clicks]: [click_count], [running],
    the configuration ([width], [height], [circle_lifetime]) and the colours
    are what they were. *)
Theorem update_circles_changes_only_clicks (self : MyGame) (w : World) :
  let self' := fst (_update_circles self w) in
  click_count self' = click_count self
  /\ running self' = running self
  /\ width self' = width self
  /\ height self' = height self
  /\ circle_lifetime self' = circle_lifetime self
  /\ bg_color self' = bg_color self
  /\ text_color self' = text_color self
  /\ circle_color self' = circle_color self
  /\ self' = set_clicks (clicks self') self.
Proof.
  cbv zeta; rewrite update_circles_unfold; simpl.
  repeat split.
Qed.

(** ** The scenario of the specification

    Lifetime 3.0 s; a left click at (10, 10) at t = 0, a second at (20, 20) at
    t = 2.9, the expiration step at t = 3.1, then a right click. *)

#[local] Set Warnings "-inexact-float".

Example scenario_two_clicks :
  let w := mkWorld (fun n => match n with O => 0 | 1%nat => 2.9 | _ => 3.1 end)%float
                   (fun _ => []) [] in
  let self := fst (steps [HandleEvent (MOUSEBUTTONDOWN 1 (10, 10));
                          HandleEvent (MOUSEBUTTONDOWN 1 (20, 20))] fresh_game w) in
  map fst (clicks self) = [(10, 10); (20, 20)] /\ click_count self = 2.
Proof. vm_compute; auto. Qed.

Example scenario_first_marker_expires :
  let w := mkWorld (fun n => match n with O => 0 | 1%nat => 2.9 | _ => 3.1 end)%float
                   (fun _ => []) [] in
  let self := fst (steps [HandleEvent (MOUSEBUTTONDOWN 1 (10, 10));
                          HandleEvent (MOUSEBUTTONDOWN 1 (20, 20));
                          UpdateCircles] fresh_game w) in
  map fst (clicks self) = [(20, 20)] /\ click_count self = 2.
Proof. vm_compute; auto. Qed.

Example scenario_right_click :
  let w := mkWorld (fun n => match n with O => 0 | 1%nat => 2.9 | _ => 3.1 end)%float
                   (fun _ => []) [] in
  let self := fst (steps [HandleEvent (MOUSEBUTTONDOWN 1 (10, 10));
                          HandleEvent (MOUSEBUTTONDOWN 1 (20, 20));
                          UpdateCircles;
                          HandleEvent (MOUSEBUTTONDOWN 3 (0, 0))] fresh_game w) in
  clicks self = [] /\ click_count self = 0.
Proof. vm_compute; auto. Qed.

(** A marker whose age is exactly the lifetime is removed. *)
Example marker_at_lifetime_expires :
  let w := mkWorld (fun _ => 3.0%float) (fun _ => []) [] in
  clicks (fst (_update_circles (set_clicks [(10, 10, 0%float)] fresh_game) w)) = [].
Proof. vm_compute; reflexivity. Qed.

(** ** Event handling *)

Lemma handle_event_unfold event self w :
  handle_event event self w =
  match event with
  | QUIT => (set_running false self, w)
  | MOUSEBUTTONDOWN button (x, y) =>
      if button =? 1 then
        (set_click_count (click_count self + 1)
           (set_clicks (clicks self ++ [(x, y, clock w O)]) self),
         mkWorld (fun n => clock w (S n)) (pending w)
           ((trace w ++ [TimeTime (clock w O)]) ++
            [LoggerInfo ("Left click registered at: (" ++ str x ++ ", " ++ str y ++ ")")]))
      else if button =? 3 then
        (set_click_count 0 (set_clicks [] self),
         mkWorld (clock w) (pending w)
           (trace w ++ [LoggerInfo "Right click detected, state reset."]))
      else (self, w)
  | OTHER _ => (self, w)
  end.
Proof.
  destruct event as [|button [x y]|ty]; try reflexivity.
  unfold handle_event.
  destruct (button =? 1); [reflexivity|].
  destruct (button =? 3); reflexivity.
Qed.

Lemma for_each_cons {A S : Type} (body : A -> S -> M S) a l s w :
  for_each body (a :: l) s w =
  for_each body l (fst (body a s w)) (snd (body a s w)).
Proof. simpl; unfold bind; destruct (body a s w); reflexivity. Qed.

Lemma for_each_app {A S : Type} (body : A -> S -> M S) l1 l2 s w :
  for_each body (l1 ++ l2) s w =
  for_each body l2 (fst (for_each body l1 s w)) (snd (for_each body l1 s w)).
Proof.
  revert s w; induction l1 as [|a l1 IH]; intros s w.
  - reflexivity.
  - rewrite <- app_comm_cons, !for_each_cons; apply IH.
Qed.

(** C3. A right click ([MOUSEBUTTONDOWN] with button 3), at any position and
    from any game state, leaves [clicks] empty and [click_count] equal to 0. *)
Theorem right_click_resets (self : MyGame) (w : World) (pos : Z * Z) :
  let self' := fst (handle_event (MOUSEBUTTONDOWN 3 pos) self w) in
  clicks self' = [] /\ click_count self' = 0.
Proof.
  cbv zeta; rewrite handle_event_unfold; destruct pos as [x y]; simpl; auto.
Qed.

(** Without a right click, a batch adds one to [click_count] and one marker
    to the end of [clicks] per left click. *)
Lemma handle_events_without_reset (events : list Event) :
  has_right_click events = false ->
  forall (self : MyGame) (w : World),
    let self' := fst (handle_events events self w) in
    click_count self' = click_count self + Z.of_nat (count_left_clicks events)
    /\ clicks self' = clicks self ++ left_click_markers events (clock w).
Proof.
  unfold handle_events, count_left_clicks.
  induction events as [|e events IH]; intros Hno self w; cbv zeta.
  - simpl; rewrite app_nil_r; split; [lia | reflexivity].
  - simpl in Hno; apply orb_false_elim in Hno; destruct Hno as [He Hno].
    rewrite for_each_cons.
    specialize (IH Hno (fst (handle_event e self w)) (snd (handle_event e self w))).
    cbv zeta in IH; destruct IH as [IHn IHc]; rewrite IHn, IHc.
    rewrite handle_event_unfold.
    destruct e as [|button [x y]|ty]; cbn [is_left_click is_right_click] in *;
      cbn [filter left_click_markers is_left_click fst snd].
    + split; [simpl; lia | reflexivity].
    + destruct (button =? 1) eqn:H1.
      * cbn [fst snd click_count clicks set_click_count set_clicks clock List.length].
        split; [lia | rewrite <- app_assoc; reflexivity].
      * rewrite He; cbn [fst snd]; split; [lia | reflexivity].
    + split; [simpl; lia | reflexivity].
Qed.

(** Over a whole session (batches, expiration steps and draws in any
    order), without a right click, [click_count] grows by the number of left
    clicks handled. *)
Lemma steps_without_reset (l : list Step) :
  existsb is_reset_step l = false ->
  forall (self : MyGame) (w : World),
    click_count (fst (steps l self w)) =
    click_count self + Z.of_nat (count_left_click_steps l).
Proof.
  unfold steps, count_left_click_steps.
  induction l as [|s l IH]; intros Hno self w.
  - simpl; lia.
  - simpl in Hno; apply orb_false_elim in Hno; destruct Hno as [Hs Hno].
    rewrite for_each_cons, (IH Hno); clear IH.
    destruct s as [e| |]; cbn [filter is_left_click_step step].
    + rewrite handle_event_unfold.
      destruct e as [|button [x y]|ty]; cbn [is_reset_step is_right_click is_left_click] in *;
        try (simpl; lia).
      destruct (button =? 1); [simpl; lia|].
      rewrite Hs; simpl; lia.
    + rewrite update_circles_unfold; simpl; lia.
    + unfold bind; destruct (_draw self w); simpl; lia.
Qed.

(** C2. A batch of events with N left clicks and no right click, processed
    from the state [__init__] builds, leaves [click_count] equal to N and
    [clicks] equal to the left clicks' markers in order; the count is N as
    well when the events are spread over a session with expiration steps and
    draws in between; and each left click at [(x, y)] appends [(x, y, now)]
    to the end of [clicks] and adds one to [click_count], [now] being the
    clock reading at that moment. *)
Theorem left_clicks_are_counted
    (width height : Z) (lifetime : float)
    (events : list Event) (session : list Step) (w : World) :
  has_right_click events = false ->
  existsb is_reset_step session = false ->
  let (self0, w0) := __init__ width height lifetime w in
  let self' := fst (handle_events events self0 w0) in
  click_count self' = Z.of_nat (count_left_clicks events)
  /\ clicks self' = left_click_markers events (clock w0)
  /\ click_count (fst (steps session self0 w0)) =
     Z.of_nat (count_left_click_steps session)
  /\ (forall (self : MyGame) (w1 : World) (x y : Z),
        let self1 := fst (handle_event (MOUSEBUTTONDOWN 1 (x, y)) self w1) in
        clicks self1 = clicks self ++ [(x, y, clock w1 O)]
        /\ click_count self1 = click_count self + 1).
Proof.
  intros Hno Hno'.
  destruct (__init__ width height lifetime w) as [self0 w0] eqn:Hinit.
  cbv zeta.
  assert (H0 : clicks self0 = [] /\ click_count self0 = 0).
  { unfold __init__, bind, call, ret in Hinit; cbn in Hinit.
    inversion Hinit; subst; auto. }
  destruct H0 as [Hc Hn].
  destruct (handle_events_without_reset events Hno self0 w0) as [Hcount Hclicks].
  rewrite Hcount, Hclicks, (steps_without_reset session Hno'), Hc, Hn.
  split; [lia | split; [reflexivity|split; [lia|]]].
  intros self w1 x y; rewrite handle_event_unfold; simpl; auto.
Qed.

Lemma left_clicks_are_counted_witness :
  let events := [MOUSEBUTTONDOWN 1 (10, 10); OTHER 1026; MOUSEBUTTONDOWN 2 (5, 5);
                 QUIT; MOUSEBUTTONDOWN 1 (20, 20)] in
  let session := [HandleEvent (MOUSEBUTTONDOWN 1 (10, 10)); UpdateCircles; Draw;
                  HandleEvent (MOUSEBUTTONDOWN 1 (20, 20)); UpdateCircles; Draw] in
  let w := mkWorld (fun n => of_uint63 (Uint63.of_nat n)) (fun _ => []) [] in
  has_right_click events = false /\
  existsb is_reset_step session = false /\
  click_count (fst (handle_events events fresh_game w)) = 2 /\
  let (self0, w0) := __init__ 800 600 3.0%float w in
  let self' := fst (handle_events events self0 w0) in
  click_count self' = Z.of_nat (count_left_clicks events)
  /\ clicks self' = left_click_markers events (clock w0)
  /\ click_count (fst (steps session self0 w0)) =
     Z.of_nat (count_left_click_steps session)
  /\ (forall (self : MyGame) (w1 : World) (x y : Z),
        let self1 := fst (handle_event (MOUSEBUTTONDOWN 1 (x, y)) self w1) in
        clicks self1 = clicks self ++ [(x, y, clock w1 O)]
        /\ click_count self1 = click_count self + 1).
Proof.
  cbv zeta; split; [reflexivity|split; [reflexivity|split; [reflexivity|]]].
  apply (left_clicks_are_counted 800 600 3.0%float
           [MOUSEBUTTONDOWN 1 (10, 10); OTHER 1026; MOUSEBUTTONDOWN 2 (5, 5);
            QUIT; MOUSEBUTTONDOWN 1 (20, 20)]
           [HandleEvent (MOUSEBUTTONDOWN 1 (10, 10)); UpdateCircles; Draw;
            HandleEvent (MOUSEBUTTONDOWN 1 (20, 20)); UpdateCircles; Draw]
           (mkWorld (fun n => of_uint63 (Uint63.of_nat n)) (fun _ => []) []));
    reflexivity.
Defined.

(** C10. A quit event does not stop the draining of its batch: the events
    behind it are handled as usual, from the state the quit left
    ([running = False]); so a left click at [(x, y)] that follows a quit in
    one batch still appends its marker and adds one to [click_count]. *)
Theorem quit_does_not_stop_draining
    (self : MyGame) (w : World) (before after : list Event) (x y : Z) :
  (let (self1, w1) := handle_events before self w in
   handle_events (before ++ QUIT :: after) self w =
   handle_events after (set_running false self1) w1)
  /\ (let self' := fst (handle_events [QUIT; MOUSEBUTTONDOWN 1 (x, y)] self w) in
      clicks self' = clicks self ++ [(x, y, clock w O)]
      /\ click_count self' = click_count self + 1
      /\ running self' = false).
Proof.
  split.
  - destruct (handle_events before self w) as [self1 w1] eqn:Hb.
    unfold handle_events in *.
    rewrite for_each_app, Hb, for_each_cons; reflexivity.
  - cbv zeta; unfold handle_events.
    rewrite !for_each_cons, !handle_event_unfold; simpl; auto.
Qed.

(** ** Invariants of the session *)

Lemma draw_changes_no_attribute (self : MyGame) (w : World) :
  fst (step Draw self w) = self.
Proof.
  unfold step, bind; destruct (_draw self w); reflexivity.
Qed.

(** C6. In every step of the session (handling one event, the expiration
    step, drawing), [click_count] does not decrease, except in the handling
    of a right click, where it becomes exactly 0. *)
Theorem click_count_decreases_only_on_reset (s : Step) (self : MyGame) (w : World) :
  let self' := fst (step s self w) in
  if is_reset_step s then click_count self' = 0
  else click_count self <= click_count self'.
Proof.
  cbv zeta; destruct s as [e| |].
  - cbn [step is_reset_step]; rewrite handle_event_unfold.
    destruct e as [|button [x y]|ty]; cbn [is_right_click]; try (simpl; lia).
    destruct (button =? 1) eqn:H1.
    + assert ((button =? 3) = false) as -> by lia.
      simpl; lia.
    + destruct (button =? 3); simpl; lia.
  - cbn [step is_reset_step]; rewrite update_circles_unfold; simpl; lia.
  - rewrite draw_changes_no_attribute; simpl; lia.
Qed.

Lemma step_keeps_markers_within_count (s : Step) (self : MyGame) (w : World) :
  markers_within_count self -> markers_within_count (fst (step s self w)).
Proof.
  unfold markers_within_count; intro H; destruct s as [e| |].
  - cbn [step]; rewrite handle_event_unfold.
    destruct e as [|button [x y]|ty]; try exact H.
    destruct (button =? 1).
    + cbn [fst click_count clicks set_click_count set_clicks].
      rewrite length_app; simpl; lia.
    + destruct (button =? 3); [simpl; lia | exact H].
  - cbn [step]; rewrite update_circles_unfold.
    cbn [fst click_count clicks set_clicks].
    pose proof (filter_length_le (survives (clock w O) (circle_lifetime self)) (clicks self)).
    lia.
  - rewrite draw_changes_no_attribute; exact H.
Qed.

Lemma steps_keep_markers_within_count (l : list Step) (self : MyGame) (w : World) :
  markers_within_count self -> markers_within_count (fst (steps l self w)).
Proof.
  unfold steps; revert self w; induction l as [|s l IH]; intros self w H.
  - exact H.
  - rewrite for_each_cons; apply IH, step_keeps_markers_within_count, H.
Qed.

(** C9. In every state reached from the state [__init__] builds (no marker,
    [click_count = 0]) by any sequence of event-handling, expiration and
    drawing steps, the length of [clicks] is at most [click_count]. *)
Theorem markers_never_exceed_click_count
    (width height : Z) (lifetime : float) (l : list Step) (w : World) :
  let (self0, w0) := __init__ width height lifetime w in
  let self' := fst (steps l self0 w0) in
  Z.of_nat (List.length (clicks self')) <= click_count self'.
Proof.
  destruct (__init__ width height lifetime w) as [self0 w0] eqn:Hinit.
  cbv zeta; apply steps_keep_markers_within_count.
  unfold __init__, bind, call, ret in Hinit; cbn in Hinit.
  inversion Hinit; subst; unfold markers_within_count; simpl; lia.
Qed.

(** ** The run loop *)

Lemma count_frames_app (d1 d2 : list Call) :
  count_frames (d1 ++ d2) = (count_frames d1 + count_frames d2)%nat.
Proof. unfold count_frames; rewrite filter_app, length_app; reflexivity. Qed.

Lemma silent_count_frames (d : list Call) :
  forallb silent d = true -> count_frames d = O.
Proof.
  unfold count_frames; induction d as [|c d IH]; simpl; [reflexivity|].
  intro H; apply andb_prop in H; destruct H as [Hc Hd].
  unfold silent in Hc; apply andb_prop in Hc; destruct Hc as [Hf _].
  apply negb_true_iff in Hf; rewrite Hf; auto.
Qed.

Lemma frames_after_quit_skip (d tr : list Call) :
  forallb (fun c => negb (is_event_get c)) d = true ->
  frames_after_quit (d ++ tr) = frames_after_quit tr.
Proof.
  induction d as [|c d IH]; simpl; [reflexivity|].
  intro H; apply andb_prop in H; destruct H as [Hc Hd].
  destruct c; simpl in Hc; try discriminate; auto.
Qed.

Lemma silent_no_event_get (d : list Call) :
  forallb silent d = true -> forallb (fun c => negb (is_event_get c)) d = true.
Proof.
  induction d as [|c d IH]; simpl; [reflexivity|].
  intro H; apply andb_prop in H; destruct H as [Hc Hd].
  unfold silent in Hc; apply andb_prop in Hc; destruct Hc as [_ Hg].
  rewrite Hg; auto.
Qed.

(** What handling a batch does to the world and to [running]. *)
Lemma handle_events_effect (events : list Event) (self : MyGame) (w : World) :
  exists d,
    trace (snd (handle_events events self w)) = trace w ++ d
    /\ forallb silent d = true
    /\ pending (snd (handle_events events self w)) = pending w
    /\ running (fst (handle_events events self w)) =
       running self && negb (has_quit events).
Proof.
  unfold handle_events; revert self w.
  induction events as [|e events IH]; intros self w.
  - exists []; simpl; rewrite app_nil_r, andb_true_r; auto.
  - rewrite for_each_cons.
    destruct (IH (fst (handle_event e self w)) (snd (handle_event e self w)))
      as (d & Ht & Hs & Hp & Hr).
    rewrite Ht, Hp, Hr, handle_event_unfold.
    destruct e as [|button [x y]|ty].
    + exists d; simpl; rewrite andb_false_r; auto.
    + destruct (button =? 1); [|destruct (button =? 3)]; cbn [fst snd trace pending running
        set_click_count set_clicks has_quit existsb is_quit orb].
      * eexists; rewrite <- !app_assoc; split; [reflexivity|].
        simpl; auto.
      * eexists; rewrite <- !app_assoc; split; [reflexivity|].
        simpl; auto.
      * exists d; auto.
    + exists d; simpl; auto.
Qed.

Lemma draw_circles_effect (color : Color) (l : list Click) (w : World) :
  exists d,
    snd (for_each (fun (c : Click) (_ : unit) =>
                     let '(x, y, _) := c in call (DrawCircle color (x, y) 20))
                  l tt w)
    = mkWorld (clock w) (pending w) (trace w ++ d)
    /\ forallb silent d = true.
Proof.
  revert w; induction l as [|[[x y] t] l IH]; intro w.
  - exists []; simpl; rewrite app_nil_r; destruct w; auto.
  - rewrite for_each_cons.
    match goal with |- context [for_each _ l ?u ?w1] =>
      destruct (IH w1) as (d & Hd & Hs); destruct u end.
    rewrite Hd; eexists; simpl; rewrite <- app_assoc; split; [reflexivity|].
    simpl; exact Hs.
Qed.

(** [_draw] presents exactly one frame, as its last call. *)
Lemma draw_effect (self : MyGame) (w : World) :
  exists d,
    snd (_draw self w) = mkWorld (clock w) (pending w) (trace w ++ d ++ [DisplayFlip])
    /\ forallb silent d = true.
Proof.
  unfold _draw, bind at 1.
  destruct (call (ScreenFill (bg_color self)) w) as [u w1] eqn:H1.
  unfold call in H1; inversion H1; subst; clear H1.
  unfold bind at 1.
  match goal with |- context [for_each ?f ?l tt ?w1] =>
    destruct (draw_circles_effect (circle_color self) l w1) as (d & Hd & Hs);
    destruct (for_each f l tt w1) as [u' w2] end.
  simpl in Hd; subst w2.
  exists (ScreenFill (bg_color self) :: d ++
          [FontRender ("Clicks: " ++ str (click_count self)) true (text_color self);
           ScreenBlit (width self - 10, 10)]).
  split.
  - unfold bind, call; simpl.
    f_equal; repeat (rewrite <- app_assoc; simpl); reflexivity.
  - simpl; rewrite forallb_app, Hs; reflexivity.
Qed.

(** One iteration reads one batch, presents one frame, and leaves [running]
    true only if it was and the batch held no quit event. *)
Lemma iteration_effect (self : MyGame) (w : World) :
  exists d,
    trace (snd (iteration self w)) = trace w ++ EventGet (pending w O) :: d
    /\ forallb (fun c => negb (is_event_get c)) d = true
    /\ count_frames d = 1%nat
    /\ pending (snd (iteration self w)) = (fun n => pending w (S n))
    /\ running (fst (iteration self w)) =
       running self && negb (has_quit (pending w O)).
Proof.
  destruct (iteration self w) as [self' w'] eqn:Hit; cbn [fst snd].
  unfold iteration, bind, pygame_event_get in Hit; cbv zeta in Hit.
  match type of Hit with context [handle_events ?evs ?g ?w1] =>
    destruct (handle_events_effect evs g w1) as (d1 & Ht1 & Hs1 & Hp1 & Hr1);
    destruct (handle_events evs g w1) as [self1 w2]
  end.
  cbn [fst snd trace pending] in Ht1, Hp1, Hr1.
  rewrite update_circles_unfold in Hit.
  match type of Hit with context [_draw ?g ?w3] =>
    destruct (draw_effect g w3) as (d2 & Hd2 & Hs2);
    destruct (_draw g w3) as [u w4]
  end.
  cbn [snd clock pending trace] in Hd2; subst w4.
  unfold call, ret in Hit; cbn [clock pending trace] in Hit.
  inversion Hit; subst self' w'; clear Hit.
  cbn [trace pending running set_clicks].
  exists (d1 ++ TimeTime (clock w2 O) :: d2 ++ [DisplayFlip; ClockTick 60]).
  split; [|split; [|split; [|split]]].
  - rewrite Ht1.
    repeat (rewrite <- app_assoc; cbn [app]); reflexivity.
  - apply silent_no_event_get in Hs1, Hs2.
    rewrite forallb_app, Hs1; cbn [forallb is_event_get negb andb].
    rewrite forallb_app, Hs2; reflexivity.
  - apply silent_count_frames in Hs1, Hs2.
    change (TimeTime (clock w2 O) :: d2 ++ [DisplayFlip; ClockTick 60])
      with ([TimeTime (clock w2 O)] ++ d2 ++ [DisplayFlip; ClockTick 60]).
    rewrite !count_frames_app, Hs1, Hs2; reflexivity.
  - exact Hp1.
  - exact Hr1.
Qed.

Lemma skipn_app_exact {A : Type} (l d : list A) :
  skipn (List.length l) (l ++ d) = d.
Proof. induction l; simpl; auto. Qed.

(** A stopped game never iterates again: [run_loop] only calls
    [pygame.quit()]. *)
Lemma run_loop_stopped (fuel : nat) (self : MyGame) (w : World) :
  running self = false ->
  run_loop fuel self w =
  (Some self, mkWorld (clock w) (pending w) (trace w ++ [PygameQuit])).
Proof. intro H; destruct fuel; simpl; rewrite H; reflexivity. Qed.

(** The loop started on a running game whose [k]-th coming batch is the first
    to hold a quit event. *)
Lemma run_loop_until_quit (k : nat) :
  forall (self : MyGame) (w : World) (fuel : nat),
    running self = true ->
    (forall i, (i < k)%nat -> has_quit (pending w i) = false) ->
    has_quit (pending w k) = true ->
    (k < fuel)%nat ->
    exists self' w' d,
      run_loop fuel self w = (Some self', w')
      /\ running self' = false
      /\ trace w' = trace w ++ d
      /\ frames_after_quit d = Some 1%nat
      /\ count_frames d = S k
      /\ (exists d0, d = d0 ++ [PygameQuit]).
Proof.
  induction k as [|k IH]; intros self w fuel Hrun Hbefore Hquit Hfuel;
    (destruct fuel as [|fuel]; [lia|]);
    destruct (iteration_effect self w) as (d1 & Ht & Hg & Hc & Hp & Hr);
    cbn [run_loop]; rewrite Hrun; unfold bind;
    destruct (iteration self w) as [self1 w1]; cbn [fst snd] in *.
  - rewrite Hrun, Hquit in Hr; cbn in Hr.
    rewrite (run_loop_stopped fuel self1 w1 Hr).
    exists self1, (mkWorld (clock w1) (pending w1) (trace w1 ++ [PygameQuit])),
           (EventGet (pending w O) :: d1 ++ [PygameQuit]).
    repeat split.
    + exact Hr.
    + cbn [trace]; rewrite Ht, <- app_assoc; reflexivity.
    + cbn [frames_after_quit]; rewrite Hquit, count_frames_app, Hc; reflexivity.
    + change (EventGet (pending w O) :: d1 ++ [PygameQuit])
        with ([EventGet (pending w O)] ++ d1 ++ [PygameQuit]).
      rewrite !count_frames_app, Hc; reflexivity.
    + exists (EventGet (pending w O) :: d1); reflexivity.
  - rewrite Hrun, (Hbefore O) in Hr by lia; cbn in Hr.
    destruct (IH self1 w1 fuel Hr) as (self' & w' & d & Hloop & Hstop & Htr & Hfq & Hcf & Hlast).
    + intros i Hi; rewrite Hp; apply Hbefore; lia.
    + rewrite Hp; exact Hquit.
    + lia.
    + exists self', w', (EventGet (pending w O) :: d1 ++ d).
      repeat split; try assumption.
      * rewrite Htr, Ht, <- app_assoc; reflexivity.
      * cbn [frames_after_quit]; rewrite (Hbefore O) by lia.
        rewrite frames_after_quit_skip by assumption; exact Hfq.
      * change (EventGet (pending w O) :: d1 ++ d)
          with ([EventGet (pending w O)] ++ d1 ++ d).
        rewrite !count_frames_app, Hc, Hcf; reflexivity.
      * destruct Hlast as [d0 Hd0]; exists (EventGet (pending w O) :: d1 ++ d0).
        rewrite Hd0; cbn [app]; rewrite app_assoc; reflexivity.
Qed.

(** C4, as the spec states it, fails: with a quit event in the very first
    batch, [run] still fills the screen, renders the counter and presents a
    frame after that batch has been handled. *)
Lemma quit_in_first_batch_still_draws_a_frame :
  fst (run 1 fresh_game quit_at_once) = Some (set_running false fresh_game)
  /\ trace (snd (run 1 fresh_game quit_at_once)) =
     [LoggerInfo "Running MyGame"; TimeClock;
      EventGet [QUIT];
      TimeTime 0%float;
      ScreenFill (30, 30, 30);
      FontRender "Clicks: 0" true (255, 255, 255);
      ScreenBlit (790, 10);
      DisplayFlip;
      ClockTick 60;
      PygameQuit]
  /\ frames_after_quit (trace (snd (run 1 fresh_game quit_at_once))) <> Some O.
Proof.
  split; [reflexivity|split; [reflexivity|]].
  vm_compute; discriminate.
Qed.

(** ** The command-line entry point *)

(** [main] by the outcome of its [try] block. *)
Lemma main_unfold (setup_logger app : Cli.E unit) (w : World) :
  Cli.main setup_logger app w =
  match Cli.try_block setup_logger app w with
  | (Cli.Returned _, w') => (Cli.Returned 0, w')
  | (Cli.Raised (Cli.UserNotificationException msg), w') =>
      (Cli.Returned 1,
       mkWorld (clock w') (pending w') (trace w' ++ [LoggerError msg]))
  | (Cli.Raised e, w') => (Cli.Raised e, w')
  end.
Proof.
  unfold Cli.main, Cli.try_block, Cli.try_except_UserNotificationException,
    Cli.ebind, Cli.eret, Cli.lift, call.
  destruct (setup_logger w) as [[[]|[m1|c1 m1]] w1]; try reflexivity.
  destruct (app w1) as [[[]|[m2|c2 m2]] w2]; reflexivity.
Qed.

(** C7. [main] returns 0 exactly when the [try] block ([setup_logger()], then
    [app()]) terminates normally, returns 1 exactly when the block raises a
    [UserNotificationException] (whose message it logs as an error), and
    every other exception the block raises leaves [main] unhandled; [main]
    has no other outcome. *)
Theorem main_exit_codes (setup_logger app : Cli.E unit) (w : World) :
  let block := fst (Cli.try_block setup_logger app w) in
  let result := fst (Cli.main setup_logger app w) in
  (result = Cli.Returned 0 <-> block = Cli.Returned tt)
  /\ (result = Cli.Returned 1 <->
      exists msg, block = Cli.Raised (Cli.UserNotificationException msg))
  /\ (forall msg, block = Cli.Raised (Cli.UserNotificationException msg) ->
        trace (snd (Cli.main setup_logger app w)) =
        trace (snd (Cli.try_block setup_logger app w)) ++ [LoggerError msg])
  /\ (forall e, Cli.is_UserNotificationException e = false ->
        (result = Cli.Raised e <-> block = Cli.Raised e))
  /\ (forall e, Cli.is_UserNotificationException e = true ->
        result <> Cli.Raised e)
  /\ (forall code, result = Cli.Returned code -> code = 0 \/ code = 1).
Proof.
  cbv zeta; rewrite main_unfold.
  destruct (Cli.try_block setup_logger app w) as [[[]|[msg0|c0 m0]] w'];
    cbn [fst snd trace].
  all: split; [split; congruence|].
  all: split; [split; [intro H; try discriminate; eauto
                      | intros [msg H]; congruence]|].
  all: split; [intros msg H; try discriminate; inversion H; reflexivity|].
  all: split; [intros [m|c m] He; simpl in He; try discriminate; split; congruence|].
  all: split; [intros [m|c m] He H; simpl in He; congruence|].
  all: intros code H; inversion H; auto.
Qed.

(** * Further properties of the code *)

(** ** Drawing *)

Lemma draw_circles_unfold (color : Color) (l : list Click) (w : World) :
  for_each (fun (c : Click) (_ : unit) =>
              let '(x, y, _) := c in call (DrawCircle color (x, y) 20))
           l tt w
  = (tt, mkWorld (clock w) (pending w)
           (trace w ++ map (fun c : Click => DrawCircle color (click_pos c) 20) l)).
Proof.
  revert w; induction l as [|[[x y] t] l IH]; intro w.
  - simpl; rewrite app_nil_r; destruct w; reflexivity.
  - rewrite for_each_cons; cbn [fst snd call].
    rewrite IH; cbn [clock pending trace map click_pos fst].
    rewrite <- app_assoc; reflexivity.
Qed.

Lemma draw_unfold (self : MyGame) (w : World) :
  _draw self w = (tt, mkWorld (clock w) (pending w) (trace w ++ frame_of self)).
Proof.
  unfold _draw, bind at 1; cbn [call].
  unfold bind at 1; rewrite draw_circles_unfold.
  unfold bind, call, frame_of; cbn [clock pending trace].
  f_equal; f_equal.
  repeat (rewrite <- app_assoc; cbn [app]); reflexivity.
Qed.

(** X1. [_draw] makes the calls of one frame and nothing else: it fills the
    background, draws one circle of radius 20 per marker, at the marker's
    position and in the order of [clicks], renders the counter text, blits it
    with its top right corner at [(width - 10, 10)] and flips the display
    once. It reads neither the clock nor the event queue. *)
Theorem draw_presents_one_frame_of_the_state (self : MyGame) (w : World) :
  let w' := snd (_draw self w) in
  trace_since w w' = frame_of self
  /\ trace w' = trace w ++ frame_of self
  /\ clock w' = clock w
  /\ pending w' = pending w
  /\ count_frames (frame_of self) = 1%nat
  /\ count_calls (fun c => match c with DrawCircle _ _ _ => true | _ => false end)
                 (frame_of self) = List.length (clicks self)
  /\ (exists before,
        frame_of self = ScreenFill (bg_color self) :: before ++ [DisplayFlip]).
Proof.
  cbv zeta; rewrite draw_unfold; unfold trace_since.
  cbn [snd clock pending trace]; rewrite skipn_app_exact.
  repeat split.
  - unfold frame_of, count_frames; cbn [filter is_flip].
    rewrite filter_app; cbn [filter is_flip]; rewrite length_app; cbn [List.length].
    induction (clicks self) as [|c l IH]; [reflexivity|].
    cbn [map filter is_flip]; exact IH.
  - unfold frame_of, count_calls; cbn [filter].
    rewrite filter_app; cbn [filter]; rewrite length_app; cbn [List.length].
    rewrite Nat.add_0_r.
    induction (clicks self) as [|c l IH]; [reflexivity|].
    cbn [map filter List.length]; rewrite IH; reflexivity.
  - unfold frame_of.
    exists (map (fun c : Click => DrawCircle (circle_color self) (click_pos c) 20)
                (clicks self)
            ++ [FontRender ("Clicks: " ++ str (click_count self)) true (text_color self);
                ScreenBlit (width self - 10, 10)]).
    rewrite <- app_assoc; reflexivity.
Qed.

(** The state a right click leaves. *)
Lemma right_click_state (self : MyGame) (w : World) (pos : Z * Z) :
  clicks (fst (handle_event (MOUSEBUTTONDOWN 3 pos) self w)) = []
  /\ click_count (fst (handle_event (MOUSEBUTTONDOWN 3 pos) self w)) = 0.
Proof.
  rewrite handle_event_unfold; destruct pos as [x y]; simpl; auto.
Qed.

(** ** Event handling: what a batch does to the world *)

Lemma handle_events_world (events : list Event) :
  forall (self : MyGame) (w : World),
  exists d,
    snd (handle_events events self w) =
    mkWorld (fun n => clock w (count_left_clicks events + n)%nat) (pending w)
            (trace w ++ d)
    /\ forallb is_time_or_log d = true
    /\ count_calls (fun c => match c with TimeTime _ => true | _ => false end) d =
       count_left_clicks events.
Proof.
  unfold handle_events, count_left_clicks, count_calls.
  induction events as [|e events IH]; intros self w.
  - exists []; simpl; rewrite app_nil_r; destruct w; auto.
  - rewrite for_each_cons.
    destruct (IH (fst (handle_event e self w)) (snd (handle_event e self w)))
      as (d & Hw & Hd & Hn).
    rewrite Hw, handle_event_unfold; clear Hw IH.
    destruct e as [|button [x y]|ty]; cbn [filter is_left_click fst snd].
    + exists d; auto.
    + destruct (button =? 1); [|destruct (button =? 3)];
        cbn [fst snd clock pending trace List.length].
      * exists (TimeTime (clock w O)
                :: LoggerInfo ("Left click registered at: (" ++ str x ++ ", " ++ str y ++ ")")
                :: d).
        split; [|split].
        -- f_equal; repeat (rewrite <- app_assoc; cbn [app]); reflexivity.
        -- cbn [forallb is_time_or_log andb]; exact Hd.
        -- cbn [filter List.length]; rewrite Hn; reflexivity.
      * exists (LoggerInfo "Right click detected, state reset." :: d).
        split; [|split].
        -- f_equal; repeat (rewrite <- app_assoc; cbn [app]); reflexivity.
        -- cbn [forallb is_time_or_log andb]; exact Hd.
        -- cbn [filter]; exact Hn.
      * exists d; auto.
    + exists d; auto.
Qed.

(** X2. Handling a batch reads the clock exactly once per left click and
    leaves the event queue alone; the only calls it makes are [time.time()]
    and [logger.info]: nothing is drawn while events are handled. *)
Theorem handling_events_only_reads_the_clock_and_logs
    (events : list Event) (self : MyGame) (w : World) :
  let w' := snd (handle_events events self w) in
  (forall n, clock w' n = clock w (count_left_clicks events + n)%nat)
  /\ pending w' = pending w
  /\ (exists d, trace w' = trace w ++ d)
  /\ forallb is_time_or_log (trace_since w w') = true
  /\ count_calls (fun c => match c with TimeTime _ => true | _ => false end)
                 (trace_since w w') = count_left_clicks events
  /\ count_frames (trace_since w w') = O.
Proof.
  cbv zeta.
  destruct (handle_events_world events self w) as (d & Hw & Hd & Hn).
  unfold trace_since; rewrite Hw; cbn [clock pending trace].
  rewrite skipn_app_exact.
  repeat split; auto.
  - exists d; reflexivity.
  - clear Hw Hn; unfold count_frames.
    induction d as [|c d IH]; [reflexivity|].
    cbn [forallb] in Hd; apply andb_prop in Hd; destruct Hd as [Hc Hd].
    destruct c; try discriminate; cbn [filter is_flip]; auto.
Qed.

(** X3. A batch made only of events the loop has no branch for (anything
    but a quit and a press of button 1 or 3: key presses, mouse motion,
    button releases, the middle button, the wheel) changes neither the game
    nor the world. *)
Theorem ignored_events_change_nothing
    (events : list Event) (self : MyGame) (w : World) :
  forallb is_ignored events = true ->
  handle_events events self w = (self, w).
Proof.
  unfold handle_events; revert self w.
  induction events as [|e events IH]; intros self w H; [reflexivity|].
  cbn [forallb] in H; apply andb_prop in H; destruct H as [He H].
  rewrite for_each_cons, handle_event_unfold.
  unfold is_ignored in He.
  destruct e as [|button [x y]|ty]; cbn [is_quit is_left_click is_right_click] in He;
    try discriminate.
  - destruct (button =? 1); [discriminate|].
    destruct (button =? 3); [discriminate|].
    apply IH, H.
  - apply IH, H.
Qed.

Lemma ignored_events_change_nothing_witness :
  let events := [OTHER 768; MOUSEBUTTONDOWN 2 (3, 4); OTHER 1024; MOUSEBUTTONDOWN 4 (0, 0)] in
  forallb is_ignored events = true /\
  handle_events events fresh_game quit_at_once = (fresh_game, quit_at_once).
Proof.
  cbv zeta; split; [reflexivity|].
  apply (ignored_events_change_nothing
           [OTHER 768; MOUSEBUTTONDOWN 2 (3, 4); OTHER 1024; MOUSEBUTTONDOWN 4 (0, 0)]
           fresh_game quit_at_once).
  reflexivity.
Defined.

Lemma left_click_markers_positions (events : list Event) :
  forall clk, map click_pos (left_click_markers events clk) = left_click_positions events.
Proof.
  induction events as [|e events IH]; intro clk; [reflexivity|].
  destruct e as [|button [x y]|ty]; cbn [left_click_markers left_click_positions is_left_click];
    auto.
  destruct (button =? 1); cbn [map click_pos fst]; [f_equal|]; auto.
Qed.

Lemma left_click_positions_length (events : list Event) :
  List.length (left_click_positions events) = count_left_clicks events.
Proof.
  unfold count_left_clicks; induction events as [|e l IH]; [reflexivity|].
  destruct e as [|button p|ty]; cbn [left_click_positions filter is_left_click]; auto.
  destruct (button =? 1); cbn [List.length]; auto.
Qed.

(** X4. Only what follows the last right click of a batch counts: when a
    batch is [before ++ right click :: after] and [after] holds no right
    click, then whatever the state and whatever [before], [click_count] ends
    as the number of left clicks in [after], and [clicks] holds exactly
    their positions, in order. *)
Theorem batch_counts_from_its_last_reset
    (before after : list Event) (pos : Z * Z) (self : MyGame) (w : World) :
  has_right_click after = false ->
  let self' := fst (handle_events (before ++ MOUSEBUTTONDOWN 3 pos :: after) self w) in
  click_count self' = Z.of_nat (count_left_clicks after)
  /\ map click_pos (clicks self') = left_click_positions after
  /\ List.length (clicks self') = count_left_clicks after.
Proof.
  intro Hno; cbv zeta; unfold handle_events.
  rewrite for_each_app, for_each_cons.
  set (self1 := fst (for_each handle_event before self w)).
  set (w1 := snd (for_each handle_event before self w)).
  destruct (right_click_state self1 w1 pos) as [Hc Hn].
  destruct (handle_events_without_reset after Hno
              (fst (handle_event (MOUSEBUTTONDOWN 3 pos) self1 w1))
              (snd (handle_event (MOUSEBUTTONDOWN 3 pos) self1 w1)))
    as [Hcount Hclicks].
  unfold handle_events in Hcount, Hclicks.
  rewrite Hcount, Hclicks, Hc, Hn; cbn [app].
  rewrite left_click_markers_positions.
  split; [lia|split; [reflexivity|]].
  rewrite <- (length_map click_pos), left_click_markers_positions.
  apply left_click_positions_length.
Qed.

Lemma batch_counts_from_its_last_reset_witness :
  let before := [MOUSEBUTTONDOWN 1 (1, 1); MOUSEBUTTONDOWN 1 (2, 2)] in
  let after := [MOUSEBUTTONDOWN 1 (3, 3); QUIT; MOUSEBUTTONDOWN 1 (4, 4)] in
  has_right_click after = false /\
  let self' := fst (handle_events (before ++ MOUSEBUTTONDOWN 3 (0, 0) :: after)
                                  fresh_game quit_at_once) in
  click_count self' = Z.of_nat (count_left_clicks after)
  /\ map click_pos (clicks self') = left_click_positions after
  /\ List.length (clicks self') = count_left_clicks after.
Proof.
  cbv zeta; split; [reflexivity|].
  apply (batch_counts_from_its_last_reset
           [MOUSEBUTTONDOWN 1 (1, 1); MOUSEBUTTONDOWN 1 (2, 2)]
           [MOUSEBUTTONDOWN 1 (3, 3); QUIT; MOUSEBUTTONDOWN 1 (4, 4)]
           (0, 0) fresh_game quit_at_once).
  reflexivity.
Defined.

(** ** Sessions of steps *)

Lemma step_running (s : Step) (self : MyGame) (w : World) :
  running (fst (step s self w)) = running self && negb (is_quit_step s).
Proof.
  destruct s as [e| |].
  - cbn [step is_quit_step]; rewrite handle_event_unfold.
    destruct e as [|button [x y]|ty]; cbn [is_quit negb fst running set_running];
      rewrite ?andb_false_r, ?andb_true_r; try reflexivity.
    destruct (button =? 1); [reflexivity|destruct (button =? 3); reflexivity].
  - cbn [step is_quit_step negb]; rewrite update_circles_unfold, andb_true_r; reflexivity.
  - rewrite draw_changes_no_attribute, andb_true_r; reflexivity.
Qed.

(** X5. [running] only ever goes from true to false: after any session of
    steps it is true exactly when it was true before and no quit event was
    handled. In particular no event, expiration or draw restarts a stopped
    game. *)
Theorem running_only_falls (l : list Step) (self : MyGame) (w : World) :
  running (fst (steps l self w)) = running self && negb (existsb is_quit_step l).
Proof.
  unfold steps; revert self w; induction l as [|s l IH]; intros self w.
  - cbn; rewrite andb_true_r; reflexivity.
  - rewrite for_each_cons, IH, step_running; cbn [existsb].
    rewrite negb_orb, andb_assoc; reflexivity.
Qed.

Lemma step_same_configuration (s : Step) (self : MyGame) (w : World) :
  same_configuration (fst (step s self w)) self.
Proof.
  unfold same_configuration; destruct s as [e| |].
  - cbn [step]; rewrite handle_event_unfold.
    destruct e as [|button [x y]|ty]; cbn; auto 10.
    destruct (button =? 1); [|destruct (button =? 3)]; cbn; auto 10.
  - cbn [step]; rewrite update_circles_unfold; cbn; auto 10.
  - rewrite draw_changes_no_attribute; auto 10.
Qed.

Lemma same_configuration_trans (a b c : MyGame) :
  same_configuration a b -> same_configuration b c -> same_configuration a c.
Proof.
  unfold same_configuration; intros (?&?&?&?&?&?) (?&?&?&?&?&?).
  repeat split; etransitivity; eassumption.
Qed.

Lemma same_configuration_refl (a : MyGame) : same_configuration a a.
Proof. unfold same_configuration; auto 10. Qed.

(** An invariant of every step is an invariant of every session. *)
Lemma steps_invariant (P : MyGame -> Prop) :
  (forall s g w, P g -> P (fst (step s g w))) ->
  forall l g w, P g -> P (fst (steps l g w)).
Proof.
  intros Hstep; unfold steps; induction l as [|s l IH]; intros g w Hg.
  - exact Hg.
  - rewrite for_each_cons; apply IH, Hstep, Hg.
Qed.

Lemma steps_same_configuration (l : list Step) (self : MyGame) (w : World) :
  same_configuration (fst (steps l self w)) self.
Proof.
  apply (steps_invariant (fun g => same_configuration g self)).
  - intros s g w0 Hg.
    eapply same_configuration_trans; [apply step_same_configuration | exact Hg].
  - apply same_configuration_refl.
Qed.

(** X6. No step assigns the configuration: after any session of events,
    expirations and draws, [width], [height], [circle_lifetime] and the three
    colours are those the game was built with. *)
Theorem configuration_is_never_changed (l : list Step) (self : MyGame) (w : World) :
  same_configuration (fst (steps l self w)) self
  /\ circle_lifetime (fst (steps l self w)) = circle_lifetime self
  /\ (width (fst (steps l self w)), height (fst (steps l self w))) =
     (width self, height self).
Proof.
  pose proof (steps_same_configuration l self w) as H.
  split; [exact H|].
  destruct H as (Hw & Hh & Hl & _).
  rewrite Hw, Hh, Hl; auto.
Qed.

(** X7. No marker is invented or moved: after any session, every position
    in [clicks] is the position of a marker that was there at the start or
    of a left click handled in the session. *)
Theorem markers_come_from_left_clicks (l : list Step) (self : MyGame) (w : World) :
  incl (map click_pos (clicks (fst (steps l self w))))
       (map click_pos (clicks self) ++ session_left_clicks l).
Proof.
  unfold steps; revert self w; induction l as [|s l IH]; intros self w.
  - cbn; rewrite app_nil_r; apply incl_refl.
  - rewrite for_each_cons.
    eapply incl_tran; [apply IH|]; clear IH.
    destruct s as [e| |]; cbn [session_left_clicks step].
    + rewrite handle_event_unfold.
      destruct e as [|button [x y]|ty]; cbn [fst]; try apply incl_refl.
      destruct (button =? 1); [|destruct (button =? 3)]; cbn [fst clicks set_clicks set_click_count].
      * rewrite map_app; cbn [map click_pos fst]; rewrite <- app_assoc; apply incl_refl.
      * cbn [map app]; apply incl_appr, incl_refl.
      * apply incl_refl.
    + rewrite update_circles_unfold; cbn [fst clicks set_clicks].
      apply incl_app; [|apply incl_appr, incl_refl].
      apply incl_appl; intros p Hp.
      apply in_map_iff in Hp; destruct Hp as (c & Hc & Hin).
      apply filter_In in Hin; apply in_map_iff; exists c; tauto.
    + unfold bind, ret; destruct (_draw self w); cbn [fst]; apply incl_refl.
Qed.

(** ** More on the expiration step *)

Lemma filter_id_iff {A : Type} (p : A -> bool) (l : list A) :
  filter p l = l <-> (forall a, In a l -> p a = true).
Proof.
  split.
  - intros H a Ha; rewrite <- H in Ha; apply filter_In in Ha; tauto.
  - induction l as [|a l IH]; intro H; [reflexivity|].
    cbn [filter]; rewrite (H a (or_introl eq_refl)); f_equal.
    apply IH; intros b Hb; apply H; right; exact Hb.
Qed.

(** X8. The expiration step never adds a marker, and it leaves [clicks] (and
    so the whole game) as it was exactly when every marker is young at the
    reading: no marker is dropped before its time. *)
Theorem update_circles_removes_only_the_old (self : MyGame) (w : World) :
  let now := clock w O in
  let self' := fst (_update_circles self w) in
  (List.length (clicks self') <= List.length (clicks self))%nat
  /\ (clicks self' = clicks self <->
      forall c, In c (clicks self) -> young now (circle_lifetime self) c)
  /\ (self' = self <->
      forall c, In c (clicks self) -> young now (circle_lifetime self) c).
Proof.
  cbv zeta; rewrite update_circles_unfold; cbn [fst clicks set_clicks].
  split; [apply filter_length_le|].
  assert (Hiff : filter (survives (clock w O) (circle_lifetime self)) (clicks self)
                 = clicks self <->
                 forall c, In c (clicks self) ->
                           young (clock w O) (circle_lifetime self) c).
  { rewrite filter_id_iff; split; intros H c Hc; apply survives_young, H, Hc. }
  split; [exact Hiff|].
  rewrite <- Hiff; split.
  - intro H; apply (f_equal clicks) in H; exact H.
  - intro H; unfold set_clicks; rewrite H; destruct self; reflexivity.
Qed.

(** ** One iteration of the loop *)

Lemma handle_events_as_steps (events : list Event) (self : MyGame) (w : World) :
  handle_events events self w = steps (map HandleEvent events) self w.
Proof.
  unfold handle_events, steps; revert self w.
  induction events as [|e events IH]; intros self w; [reflexivity|].
  cbn [map]; rewrite !for_each_cons; cbn [step]; apply IH.
Qed.

(** The game an iteration leaves is the one its batch and one expiration
    leave. *)
Lemma iteration_unfold (self : MyGame) (w : World) :
  let events := pending w O in
  let w1 := snd (pygame_event_get w) in
  let self1 := fst (handle_events events self w1) in
  let w2 := snd (handle_events events self w1) in
  let self2 := fst (_update_circles self1 w2) in
  iteration self w =
  (self2,
   mkWorld (fun n => clock w2 (S n)) (pending w2)
           (trace w2 ++ TimeTime (clock w2 O) :: frame_of self2 ++ [ClockTick 60])).
Proof.
  cbv zeta; unfold iteration, bind at 1.
  unfold pygame_event_get at 1; cbv zeta.
  unfold bind at 1; cbn [snd pygame_event_get].
  destruct (handle_events (pending w O) self _) as [self1 w2]; cbn [fst snd].
  unfold bind at 1; rewrite update_circles_unfold; cbn [fst].
  unfold bind at 1; rewrite draw_unfold.
  unfold bind, call, ret; cbn [clock pending trace].
  f_equal; f_equal.
  repeat (rewrite <- app_assoc; cbn [app]); reflexivity.
Qed.

Lemma iteration_as_steps (self : MyGame) (w : World) :
  fst (iteration self w) =
  fst (steps (map HandleEvent (pending w O) ++ [UpdateCircles])
             self (snd (pygame_event_get w))).
Proof.
  pose proof (iteration_unfold self w) as H; cbv zeta in H; rewrite H; clear H.
  cbn [fst]; unfold steps; rewrite for_each_app.
  fold (steps (map HandleEvent (pending w O)) self (snd (pygame_event_get w))).
  rewrite <- handle_events_as_steps.
  rewrite for_each_cons; cbn [step for_each ret fst]; reflexivity.
Qed.


(** ** The run loop, round by round *)

Lemma filter_milestone_quiet (d : list Call) :
  forallb is_time_or_log d = true -> filter milestone d = [].
Proof.
  induction d as [|c d IH]; [reflexivity|].
  cbn [forallb]; intro H; apply andb_prop in H; destruct H as [Hc Hd].
  destruct c; try discriminate; cbn; auto.
Qed.

Lemma filter_milestone_frame (self : MyGame) :
  filter milestone (frame_of self) = [DisplayFlip].
Proof.
  unfold frame_of; cbn [filter milestone is_event_get is_flip is_tick is_pygame_quit orb].
  rewrite filter_app; cbn.
  induction (clicks self) as [|c l IH]; [reflexivity|].
  cbn [map filter milestone is_event_get is_flip is_tick is_pygame_quit orb]; exact IH.
Qed.

Lemma iteration_trace (self : MyGame) (w : World) :
  exists d,
    trace (snd (iteration self w)) =
    trace w ++ EventGet (pending w O) :: d ++ frame_of (fst (iteration self w))
            ++ [ClockTick 60]
    /\ forallb is_time_or_log d = true.
Proof.
  pose proof (iteration_unfold self w) as H; cbv zeta in H; rewrite H; clear H.
  set (w1 := snd (pygame_event_get w)).
  destruct (handle_events_world (pending w O) self w1) as (d & Hw & Hd & _).
  rewrite Hw; cbn [fst snd clock pending trace].
  exists (d ++ [TimeTime (clock w1 (count_left_clicks (pending w O) + 0)%nat)]).
  split.
  - subst w1; cbn [snd pygame_event_get trace].
    repeat (rewrite <- app_assoc; cbn [app]); reflexivity.
  - rewrite forallb_app, Hd; reflexivity.
Qed.

Lemma iteration_milestones (self : MyGame) (w : World) :
  exists d,
    trace (snd (iteration self w)) = trace w ++ d
    /\ filter milestone d = [EventGet (pending w O); DisplayFlip; ClockTick 60].
Proof.
  destruct (iteration_trace self w) as (d & Ht & Hd).
  eexists; split; [exact Ht|].
  cbn [filter milestone is_event_get orb].
  rewrite !filter_app, (filter_milestone_quiet d Hd), filter_milestone_frame.
  reflexivity.
Qed.

Lemma rounds_shift (queue : nat -> list Event) (first n : nat) :
  rounds (fun i => queue (S i)) first n = rounds queue (S first) n.
Proof.
  unfold rounds; revert first; induction n as [|n IH]; intro first; [reflexivity|].
  cbn [seq flat_map]; rewrite IH; reflexivity.
Qed.

Lemma run_loop_unfold_running (fuel : nat) (self : MyGame) (w : World) :
  running self = true ->
  run_loop (S fuel) self w =
  run_loop fuel (fst (iteration self w)) (snd (iteration self w)).
Proof.
  intro H; cbn [run_loop]; rewrite H; unfold bind.
  destruct (iteration self w); reflexivity.
Qed.

(** The paced calls of the loop: [n] rounds, then [pygame.quit()] if the
    loop was left. Every round but the last read a batch without a quit
    event. *)
Lemma run_loop_milestones (fuel : nat) :
  forall (self : MyGame) (w : World),
  exists d n,
    trace (snd (run_loop fuel self w)) = trace w ++ d
    /\ (n <= fuel)%nat
    /\ filter milestone d =
       rounds (pending w) 0 n ++
       match fst (run_loop fuel self w) with
       | Some _ => [PygameQuit]
       | None => []
       end
    /\ (fst (run_loop fuel self w) = None -> n = fuel)
    /\ ((0 < n)%nat -> running self = true)
    /\ (forall i, (S i < n)%nat -> has_quit (pending w i) = false).
Proof.
  induction fuel as [|fuel IH]; intros self w.
  - cbn [run_loop]; destruct (running self).
    + exists [], O; cbn; rewrite app_nil_r.
      repeat split; auto; intros; lia.
    + exists [PygameQuit], O; cbn.
      repeat split; auto; try discriminate; intros; lia.
  - destruct (running self) eqn:Hrun.
    + rewrite (run_loop_unfold_running fuel self w Hrun).
      destruct (iteration_milestones self w) as (d1 & Ht1 & Hm1).
      destruct (iteration_effect self w) as (_ & _ & _ & _ & Hp & Hr).
      destruct (IH (fst (iteration self w)) (snd (iteration self w)))
        as (d & n & Ht & Hn & Hm & Hnone & Hpos & Hq).
      exists (d1 ++ d), (S n).
      split; [rewrite Ht, Ht1, <- app_assoc; reflexivity|].
      split; [lia|].
      split; [|split; [|split]].
      * rewrite filter_app, Hm1, Hm, Hp, rounds_shift.
        unfold rounds; cbn [seq flat_map app]; reflexivity.
      * intro H; rewrite (Hnone H); reflexivity.
      * reflexivity.
      * intros [|i] Hi.
        -- assert (Hr' : running (fst (iteration self w)) = true) by (apply Hpos; lia).
           rewrite Hr, Hrun in Hr'; cbn in Hr'.
           apply negb_true_iff in Hr'; exact Hr'.
        -- specialize (Hq i); rewrite Hp in Hq; apply Hq; lia.
    + rewrite (run_loop_stopped (S fuel) self w Hrun).
      exists [PygameQuit], O; cbn.
      repeat split; auto; try discriminate; intros; lia.
Qed.

Lemma filter_filter_sub {A : Type} (p q : A -> bool) (l : list A) :
  (forall a, p a = true -> q a = true) -> filter p (filter q l) = filter p l.
Proof.
  intro H; induction l as [|a l IH]; [reflexivity|].
  cbn [filter]; destruct (q a) eqn:Hq; cbn [filter].
  - rewrite IH; reflexivity.
  - destruct (p a) eqn:Hp; [rewrite (H a Hp) in Hq; discriminate | exact IH].
Qed.

Lemma rounds_counts (queue : nat -> list Event) (first n : nat) :
  count_calls is_event_get (rounds queue first n) = n
  /\ count_calls is_flip (rounds queue first n) = n
  /\ count_calls is_tick (rounds queue first n) = n
  /\ ~ In PygameQuit (rounds queue first n).
Proof.
  unfold rounds, count_calls; revert first; induction n as [|n IH]; intro first.
  - cbn; auto.
  - destruct (IH (S first)) as (H1 & H2 & H3 & H4).
    cbn [seq flat_map app filter is_event_get is_flip is_tick List.length].
    rewrite H1, H2, H3; repeat split.
    intros [H|[H|[H|H]]]; try discriminate; exact (H4 H).
Qed.

(** X10. [run] is a strict sequence of rounds. Whatever the game and the
    inputs, and whether or not it has returned within the iterations given,
    the pacing calls it made are: batch 0 read, one frame presented, one
    [clock.tick(60)]; batch 1 read, one frame, one tick; and so on for some
    [n] rounds, followed by [pygame.quit()] exactly when it returned. The
    batches are read in queue order and none is skipped; every round but the
    last read a batch without a quit event; and the numbers of batches read,
    frames presented and ticks are equal. *)
Theorem run_is_a_sequence_of_rounds (fuel : nat) (self : MyGame) (w : World) :
  let result := fst (run fuel self w) in
  let tr := trace_since w (snd (run fuel self w)) in
  exists n,
    (n <= fuel)%nat
    /\ filter milestone tr =
       rounds (pending w) 0 n ++
       match result with Some _ => [PygameQuit] | None => [] end
    /\ count_calls is_event_get tr = n
    /\ count_frames tr = n
    /\ count_calls is_tick tr = n
    /\ (forall i, (S i < n)%nat -> has_quit (pending w i) = false).
Proof.
  cbv zeta; unfold run, bind, call; cbn [fst snd clock pending trace].
  set (w0 := mkWorld (clock w) (pending w)
                     ((trace w ++ [LoggerInfo "Running MyGame"]) ++ [TimeClock])).
  destruct (run_loop_milestones fuel self w0) as (d & n & Ht & Hn & Hm & _ & _ & Hq).
  exists n.
  assert (Htr : trace_since w (snd (run_loop fuel self w0)) =
                LoggerInfo "Running MyGame" :: TimeClock :: d).
  { unfold trace_since; rewrite Ht; subst w0; cbn [trace].
    repeat (rewrite <- app_assoc; cbn [app]); apply skipn_app_exact. }
  rewrite Htr.
  assert (Hf : filter milestone (LoggerInfo "Running MyGame" :: TimeClock :: d) =
               rounds (pending w) 0 n ++
               match fst (run_loop fuel self w0) with
               | Some _ => [PygameQuit]
               | None => []
               end) by exact Hm.
  destruct (rounds_counts (pending w) 0 n) as (H1 & H2 & H3 & _).
  assert (Hcount : forall p, (forall a, p a = true -> milestone a = true) ->
                   p PygameQuit = false ->
                   count_calls p (LoggerInfo "Running MyGame" :: TimeClock :: d) =
                   count_calls p (rounds (pending w) 0 n)).
  { intros p Hp Hpq; unfold count_calls.
    rewrite <- (filter_filter_sub p milestone) by exact Hp.
    rewrite Hf, filter_app.
    destruct (fst (run_loop fuel self w0)); cbn [filter]; rewrite ?Hpq, app_nil_r;
      reflexivity. }
  split; [exact Hn|].
  split; [exact Hf|].
  split; [|split; [|split]].
  - rewrite Hcount; [exact H1| |reflexivity].
    intros a Ha; unfold milestone; rewrite Ha; reflexivity.
  - change (count_frames (LoggerInfo "Running MyGame" :: TimeClock :: d))
      with (count_calls is_flip (LoggerInfo "Running MyGame" :: TimeClock :: d)).
    rewrite Hcount; [exact H2| |reflexivity].
    intros a Ha; unfold milestone; rewrite Ha, orb_true_r; reflexivity.
  - rewrite Hcount; [exact H3| |reflexivity].
    intros a Ha; unfold milestone; rewrite Ha, !orb_true_r; reflexivity.
  - exact Hq.
Qed.

Lemma run_loop_none_without_quit (fuel : nat) :
  forall (self : MyGame) (w : World),
    running self = true ->
    (forall i, (i < fuel)%nat -> has_quit (pending w i) = false) ->
    fst (run_loop fuel self w) = None.
Proof.
  induction fuel as [|fuel IH]; intros self w Hrun Hno.
  - cbn [run_loop]; rewrite Hrun; reflexivity.
  - rewrite (run_loop_unfold_running fuel self w Hrun).
    destruct (iteration_effect self w) as (_ & _ & _ & _ & Hp & Hr).
    apply IH.
    + rewrite Hr, Hrun, (Hno O) by lia; reflexivity.
    + intros i Hi; rewrite Hp; apply Hno; lia.
Qed.

(** X11. The loop leaves only on a quit event: started on a running game,
    as long as no batch holds a quit event [run] does not return (it is still
    iterating after as many iterations as it is given), it has presented one
    frame per iteration, and it has not called [pygame.quit()]. *)
Theorem run_does_not_return_without_quit (fuel : nat) (self : MyGame) (w : World) :
  running self = true ->
  (forall i, (i < fuel)%nat -> has_quit (pending w i) = false) ->
  fst (run fuel self w) = None
  /\ count_frames (trace_since w (snd (run fuel self w))) = fuel
  /\ ~ In PygameQuit (trace_since w (snd (run fuel self w))).
Proof.
  intros Hrun Hno; unfold run, bind, call; cbn [fst snd clock pending trace].
  set (w0 := mkWorld (clock w) (pending w)
                     ((trace w ++ [LoggerInfo "Running MyGame"]) ++ [TimeClock])).
  pose proof (run_loop_none_without_quit fuel self w0 Hrun Hno) as Hnone.
  destruct (run_loop_milestones fuel self w0) as (d & n & Ht & Hn & Hm & Hfuel & _ & _).
  rewrite Hnone in Hm; rewrite app_nil_r in Hm.
  specialize (Hfuel Hnone); subst n.
  assert (Htr : trace_since w (snd (run_loop fuel self w0)) =
                LoggerInfo "Running MyGame" :: TimeClock :: d).
  { unfold trace_since; rewrite Ht; subst w0; cbn [trace].
    repeat (rewrite <- app_assoc; cbn [app]); apply skipn_app_exact. }
  rewrite Htr.
  destruct (rounds_counts (pending w0) 0 fuel) as (_ & H2 & _ & H4).
  split; [exact Hnone|split].
  - unfold count_frames; cbn [filter is_flip].
    rewrite <- (filter_filter_sub is_flip milestone).
    + rewrite Hm; exact H2.
    + intros a Ha; unfold milestone; rewrite Ha, orb_true_r; reflexivity.
  - intros [H|[H|H]]; try discriminate.
    apply H4; rewrite <- Hm; apply filter_In; split; [exact H|reflexivity].
Qed.

Lemma run_does_not_return_without_quit_witness :
  let w := mkWorld (fun _ => 0%float)
                   (fun n => match n with
                             | O => [MOUSEBUTTONDOWN 1 (10, 10)]
                             | 1%nat => [OTHER 1024]
                             | _ => [QUIT]
                             end) [] in
  running fresh_game = true /\
  fst (run 2 fresh_game w) = None
  /\ count_frames (trace_since w (snd (run 2 fresh_game w))) = 2%nat
  /\ ~ In PygameQuit (trace_since w (snd (run 2 fresh_game w))).
Proof.
  cbv zeta; split; [reflexivity|].
  apply (run_does_not_return_without_quit 2 fresh_game
           (mkWorld (fun _ => 0%float)
                    (fun n => match n with
                              | O => [MOUSEBUTTONDOWN 1 (10, 10)]
                              | 1%nat => [OTHER 1024]
                              | _ => [QUIT]
                              end) [])).
  - reflexivity.
  - intros [|[|i]] Hi; [reflexivity | reflexivity | lia].
Defined.

(** An invariant of every step holds of the game [run_loop] returns. *)
Lemma run_loop_invariant (P : MyGame -> Prop) :
  (forall s g w, P g -> P (fst (step s g w))) ->
  forall fuel self w self',
    P self -> fst (run_loop fuel self w) = Some self' ->
    P self' /\ running self' = false.
Proof.
  intro Hstep; induction fuel as [|fuel IH]; intros self w self' HP Hret.
  - cbn [run_loop] in Hret; destruct (running self) eqn:Hrun; [discriminate|].
    cbn in Hret; inversion Hret; subst; auto.
  - destruct (running self) eqn:Hrun.
    + rewrite (run_loop_unfold_running fuel self w Hrun) in Hret.
      apply IH in Hret; [exact Hret|].
      rewrite iteration_as_steps; apply steps_invariant; assumption.
    + rewrite (run_loop_stopped (S fuel) self w Hrun) in Hret.
      inversion Hret; subst; auto.
Qed.

(** The first batch with a quit event, when there is one. *)
Lemma first_quit (queue : nat -> list Event) (k : nat) :
  has_quit (queue k) = true ->
  exists k0, (k0 <= k)%nat
             /\ has_quit (queue k0) = true
             /\ (forall i, (i < k0)%nat -> has_quit (queue i) = false).
Proof.
  induction k as [k IH] using (well_founded_induction lt_wf); intro Hk.
  destruct (existsb (fun i => has_quit (queue i)) (seq 0 k)) eqn:Hex.
  - apply existsb_exists in Hex; destruct Hex as (i & Hi & Hq).
    apply in_seq in Hi.
    destruct (IH i) as (k0 & Hle & Hq0 & Hno); [lia | exact Hq |].
    exists k0; repeat split; [lia | exact Hq0 | exact Hno].
  - exists k; repeat split; [lia | exact Hk |].
    intros i Hi.
    destruct (has_quit (queue i)) eqn:Hq; [|reflexivity].
    assert (Hex' : existsb (fun i => has_quit (queue i)) (seq 0 k) = true).
    { apply existsb_exists; exists i; split; [apply in_seq; lia | exact Hq]. }
    congruence.
Qed.

(** X12. [run] returns a stopped game, and it does return when it can.
    Called on a game that is already stopped, [run] returns at once, with
    the game unchanged, having only logged its start, created its clock and
    called [pygame.quit()]: no batch is read and nothing is drawn. Called on
    any game, it returns as soon as it is given more iterations than the
    index of a batch holding a quit event. And whenever it returns, the
    game is stopped ([running = False]), its configuration ([width],
    [height], [circle_lifetime], colours) is the one it was started with,
    and if it started with no more markers than clicks counted it ends
    so. *)
Theorem run_returns_a_stopped_game (fuel : nat) (self : MyGame) (w : World) :
  (running self = false ->
   run fuel self w =
   (Some self,
    mkWorld (clock w) (pending w)
            (trace w ++ [LoggerInfo "Running MyGame"; TimeClock; PygameQuit])))
  /\ (running self = false
      \/ (exists k, (k < fuel)%nat /\ has_quit (pending w k) = true) ->
      exists self', fst (run fuel self w) = Some self')
  /\ (forall self',
        fst (run fuel self w) = Some self' ->
        running self' = false
        /\ same_configuration self' self
        /\ (markers_within_count self -> markers_within_count self')).
Proof.
  assert (Hstopped : running self = false ->
            run fuel self w =
            (Some self,
             mkWorld (clock w) (pending w)
               (trace w ++ [LoggerInfo "Running MyGame"; TimeClock; PygameQuit]))).
  { intro Hstop; unfold run, bind, call; cbn [fst snd clock pending trace].
    rewrite run_loop_stopped by exact Hstop; cbn [clock pending trace].
    repeat (rewrite <- app_assoc; cbn [app]); reflexivity. }
  split; [exact Hstopped|split].
  - intros [Hstop|(k & Hk & Hq)].
    + exists self; rewrite (Hstopped Hstop); reflexivity.
    + destruct (running self) eqn:Hrun.
      * destruct (first_quit (pending w) k Hq) as (k0 & Hle & Hq0 & Hno).
        unfold run, bind, call; cbn [fst snd clock pending trace].
        set (w0 := mkWorld (clock w) (pending w) _).
        destruct (run_loop_until_quit k0 self w0 fuel Hrun Hno Hq0)
          as (self' & w' & d & Hloop & _); [lia|].
        exists self'; rewrite Hloop; reflexivity.
      * exists self; rewrite (Hstopped eq_refl); reflexivity.
  - unfold run, bind, call; cbn [fst snd clock pending trace]; intros self' Hret.
    split; [|split].
    + eapply (run_loop_invariant (fun _ => True)); eauto.
    + eapply (run_loop_invariant (fun g => same_configuration g self)); eauto.
      * intros s g w0 Hg.
        eapply same_configuration_trans; [apply step_same_configuration | exact Hg].
      * apply same_configuration_refl.
    + intro Hm.
      eapply (run_loop_invariant markers_within_count); eauto.
      intros s g w0; apply step_keeps_markers_within_count.
Qed.

(** ** The script entry *)

(** X13. [MyGame().run()], as the script entry of [my_game.py] runs it: the
    window is set up first (pygame initialised, an 800 x 600 display, the
    caption, the font), before the first batch is read; and when the [k]-th
    batch is the first with a quit event the call returns a stopped game
    that still has the default configuration, after [k + 1] frames, with
    [pygame.quit()] as its last call. *)
Theorem script_entry_sets_up_then_runs (w : World) (k fuel : nat) :
  (forall i, (i < k)%nat -> has_quit (pending w i) = false) ->
  has_quit (pending w k) = true ->
  (k < fuel)%nat ->
  exists self' w' d,
    my_game_main fuel w = (Some self', w')
    /\ running self' = false
    /\ (width self', height self', circle_lifetime self') =
       (800, 600, 3.0%float)
    /\ trace_since w w' =
       [PygameInit; DisplaySetMode (800, 600);
        DisplaySetCaption "PyGame Circle Click Example";
        FontInit; FontSysFont "Arial" 24;
        LoggerInfo "Running MyGame"; TimeClock]
       ++ EventGet (pending w O) :: d ++ [PygameQuit]
    /\ count_frames (EventGet (pending w O) :: d ++ [PygameQuit]) = S k.
Proof.
  intros Hbefore Hquit Hfuel.
  unfold my_game_main, __init__, run, bind, call, ret; cbn [clock pending trace].
  set (w0 := mkWorld (clock w) (pending w) _).
  set (g0 := mkMyGame _ _ _ _ _ _ _ _ _).
  destruct (run_loop_until_quit k g0 w0 fuel eq_refl Hbefore Hquit Hfuel)
    as (self' & w' & d & Hloop & Hstop & Htr & _ & Hcf & d0 & Hd0).
  destruct (run_loop_invariant (fun g => same_configuration g g0)) with
    (fuel := fuel) (self := g0) (w := w0) (self' := self') as [Hcfg _].
  { intros s g w1 Hg.
    eapply same_configuration_trans; [apply step_same_configuration | exact Hg]. }
  { apply same_configuration_refl. }
  { rewrite Hloop; reflexivity. }
  destruct Hcfg as (Hw & Hh & Hl & _).
  assert (Hfirst : exists d1, d0 = EventGet (pending w O) :: d1).
  { destruct fuel as [|fuel]; [lia|].
    rewrite (run_loop_unfold_running fuel g0 w0 eq_refl) in Hloop.
    destruct (iteration_effect g0 w0) as (d1 & Ht1 & _).
    destruct (run_loop_milestones fuel (fst (iteration g0 w0)) (snd (iteration g0 w0)))
      as (d2 & _ & Ht2 & _).
    rewrite Hloop in Ht2; cbn [snd] in Ht2.
    rewrite Htr, Ht1, <- app_assoc in Ht2; apply app_inv_head in Ht2.
    rewrite Hd0 in Ht2; cbn [app] in Ht2.
    destruct d0 as [|c d0'].
    - cbn in Ht2; discriminate.
    - cbn [app] in Ht2; inversion Ht2; subst c; exists d0'; reflexivity. }
  destruct Hfirst as (d1 & Hd1).
  exists self', w', d1.
  rewrite Hloop; split; [reflexivity|].
  split; [exact Hstop|].
  split; [rewrite Hw, Hh, Hl; reflexivity|].
  split.
  - unfold trace_since; rewrite Htr, Hd0, Hd1; subst w0; cbn [trace].
    repeat (rewrite <- app_assoc; cbn [app]); apply skipn_app_exact.
  - rewrite <- Hcf, Hd0, Hd1; reflexivity.
Qed.

Lemma script_entry_sets_up_then_runs_witness :
  has_quit (pending quit_at_once 0) = true /\
  exists self' w' d,
    my_game_main 1 quit_at_once = (Some self', w')
    /\ running self' = false
    /\ (width self', height self', circle_lifetime self') =
       (800, 600, 3.0%float)
    /\ trace_since quit_at_once w' =
       [PygameInit; DisplaySetMode (800, 600);
        DisplaySetCaption "PyGame Circle Click Example";
        FontInit; FontSysFont "Arial" 24;
        LoggerInfo "Running MyGame"; TimeClock]
       ++ EventGet (pending quit_at_once O) :: d ++ [PygameQuit]
    /\ count_frames (EventGet (pending quit_at_once O) :: d ++ [PygameQuit]) = 1%nat.
Proof.
  split; [reflexivity|].
  apply (script_entry_sets_up_then_runs quit_at_once 0 1).
  - intros i Hi; lia.
  - reflexivity.
  - lia.
Defined.

(** ** The entry point, again *)

(** X14. [main] runs [app()] only after [setup_logger()] has returned: when
    [setup_logger()] raises, the outcome of [main] and the world it leaves do
    not depend on [app], and the [try] block leaves the world as
    [setup_logger()] left it. And [main] itself touches the world only to log
    a [UserNotificationException]: for every other outcome of the [try]
    block the world is as the block left it. *)
Theorem app_is_not_run_when_setup_fails
    (setup_logger app app' : Cli.E unit) (w : World) (e : Cli.PyException) :
  fst (setup_logger w) = Cli.Raised e ->
  Cli.main setup_logger app w = Cli.main setup_logger app' w
  /\ snd (Cli.try_block setup_logger app w) = snd (setup_logger w)
  /\ (forall (s a : Cli.E unit) (w0 : World),
        (forall msg, fst (Cli.try_block s a w0) <>
                     Cli.Raised (Cli.UserNotificationException msg)) ->
        snd (Cli.main s a w0) = snd (Cli.try_block s a w0)).
Proof.
  intro Hfail; split; [|split].
  - rewrite !main_unfold; unfold Cli.try_block, Cli.ebind.
    destruct (setup_logger w) as [[u|e0] w1]; [discriminate|reflexivity].
  - unfold Cli.try_block, Cli.ebind.
    destruct (setup_logger w) as [[u|e0] w1]; [discriminate|reflexivity].
  - intros s a w0 Hno; rewrite main_unfold.
    destruct (Cli.try_block s a w0) as [[u|[msg|c m]] w1]; try reflexivity.
    exfalso; apply (Hno msg); reflexivity.
Qed.

Lemma app_is_not_run_when_setup_fails_witness :
  let setup : Cli.E unit := Cli.raise (Cli.OtherException "OSError" "log file") in
  let app : Cli.E unit := Cli.lift (call PygameInit) in
  let app' : Cli.E unit := Cli.raise (Cli.UserNotificationException "no") in
  fst (setup quit_at_once) = Cli.Raised (Cli.OtherException "OSError" "log file") /\
  (Cli.main setup app quit_at_once = Cli.main setup app' quit_at_once
   /\ snd (Cli.try_block setup app quit_at_once) = snd (setup quit_at_once)
   /\ (forall (s a : Cli.E unit) (w0 : World),
         (forall msg, fst (Cli.try_block s a w0) <>
                      Cli.Raised (Cli.UserNotificationException msg)) ->
         snd (Cli.main s a w0) = snd (Cli.try_block s a w0))).
Proof.
  cbv zeta; split; [reflexivity|].
  apply (app_is_not_run_when_setup_fails
           (Cli.raise (Cli.OtherException "OSError" "log file"))
           (Cli.lift (call PygameInit))
           (Cli.raise (Cli.UserNotificationException "no"))
           quit_at_once
           (Cli.OtherException "OSError" "log file")).
  reflexivity.
Defined.

(** ** A lifetime that is not a number *)

Lemma float_ltb_nan (a : float) : (a <? nan)%float = false.
Proof.
  rewrite ltb_spec; unfold SFltb.
  change (Prim2SF nan) with S754_nan.
  destruct (Prim2SF a) as [s|s| |s m e]; try destruct s; reflexivity.
Qed.

(** X15. [__init__] does not validate [circle_lifetime]. With a NaN lifetime
    the test [current_time - t < circle_lifetime] is false for every marker,
    so every expiration step empties [clicks], whatever the clock reads;
    [click_count] is kept. *)
Theorem nan_lifetime_expires_everything (self : MyGame) (w : World) :
  circle_lifetime self = nan ->
  clicks (fst (_update_circles self w)) = []
  /\ click_count (fst (_update_circles self w)) = click_count self.
Proof.
  intro Hnan; rewrite update_circles_unfold; cbn [fst clicks click_count set_clicks].
  split; [|reflexivity].
  rewrite Hnan; induction (clicks self) as [|[[x y] t] l IH]; [reflexivity|].
  cbn [filter survives]; rewrite float_ltb_nan; exact IH.
Qed.

Lemma nan_lifetime_expires_everything_witness :
  let self := mkMyGame 800 600 nan [(10, 10, 0%float); (20, 20, 5%float)] 2
                       (30, 30, 30) (255, 255, 255) (255, 0, 0) true in
  circle_lifetime self = nan /\
  (clicks (fst (_update_circles self quit_at_once)) = []
   /\ click_count (fst (_update_circles self quit_at_once)) = click_count self).
Proof.
  cbv zeta; split; [reflexivity|].
  apply (nan_lifetime_expires_everything
           (mkMyGame 800 600 nan [(10, 10, 0%float); (20, 20, 5%float)] 2
                     (30, 30, 30) (255, 255, 255) (255, 0, 0) true)
           quit_at_once).
  reflexivity.
Defined.

(** ** The iteration that receives the quit event *)

Lemma iterate_S (k : nat) (self : MyGame) (w : World) :
  iterate (S k) self w =
  iterate k (fst (iteration self w)) (snd (iteration self w)).
Proof.
  cbn [iterate]; unfold bind; destruct (iteration self w); reflexivity.
Qed.

(** While no batch holds a quit event the loop goes on: after [k] such
    batches it is at the head of the loop with the game and the world
    [iterate k] gives, still running, with the [k]-th batch next in the
    queue. *)
Lemma run_loop_reaches (k : nat) :
  forall (self : MyGame) (w : World) (fuel : nat),
    running self = true ->
    (forall i, (i < k)%nat -> has_quit (pending w i) = false) ->
    (k <= fuel)%nat ->
    run_loop fuel self w =
    run_loop (fuel - k) (fst (iterate k self w)) (snd (iterate k self w))
    /\ running (fst (iterate k self w)) = true
    /\ (forall n, pending (snd (iterate k self w)) n = pending w (k + n)%nat)
    /\ same_configuration (fst (iterate k self w)) self.
Proof.
  induction k as [|k IH]; intros self w fuel Hrun Hno Hfuel.
  - cbn [iterate]; unfold ret; cbn [fst snd]; rewrite Nat.sub_0_r.
    split; [reflexivity|].
    split; [exact Hrun|].
    split; [reflexivity|apply same_configuration_refl].
  - destruct fuel as [|fuel]; [lia|].
    rewrite iterate_S, (run_loop_unfold_running fuel self w Hrun).
    destruct (iteration_effect self w) as (_ & _ & _ & _ & Hp & Hr).
    rewrite Hrun, (Hno O) in Hr by lia; cbn in Hr.
    destruct (IH (fst (iteration self w)) (snd (iteration self w)) fuel Hr)
      as (Hloop & Hrunk & Hpk & Hcfg).
    + intros i Hi; rewrite Hp; apply Hno; lia.
    + lia.
    + cbn [Nat.sub].
      split; [exact Hloop|].
      split; [exact Hrunk|].
      split.
      * intro n; rewrite Hpk, Hp; reflexivity.
      * eapply same_configuration_trans; [exact Hcfg|].
        rewrite iteration_as_steps; apply steps_same_configuration.
Qed.

Lemma filter_draw_quiet (d : list Call) :
  forallb is_time_or_log d = true -> filter is_draw_call d = [].
Proof.
  induction d as [|c d IH]; [reflexivity|].
  cbn [forallb]; intro H; apply andb_prop in H; destruct H as [Hc Hd].
  destruct c; try discriminate; cbn [filter is_draw_call]; auto.
Qed.

Lemma filter_draw_frame (self : MyGame) :
  filter is_draw_call (frame_of self) = frame_of self.
Proof.
  unfold frame_of; cbn [filter is_draw_call]; f_equal.
  rewrite filter_app; cbn [filter is_draw_call]; f_equal.
  induction (clicks self) as [|c l IH]; [reflexivity|].
  cbn [map filter is_draw_call]; f_equal; exact IH.
Qed.

(** C4, as the code has it. When the game is running and the [k]-th coming
    batch is the first to hold a quit event, [run] returns (any fuel above
    [k] suffices) with [running = False], and the iteration that received
    the quit event is completed first:
    - the whole batch is handled, the events behind the quit event
      included (their left clicks are counted and their markers appended);
    - the expiration step runs, at a clock reading [now] taken after the
      batch: the markers of the returned game are those of the handled
      batch that are young at [now];
    - from the reading of that batch on, the calls are: the clock readings
      and log messages of the batch, the reading [now], the calls of one
      frame, showing the returned game, then [clock.tick(60)] and
      [pygame.quit()], and nothing else; so exactly one frame is presented
      after the quit batch was read ([k + 1] in all) and the only drawing
      calls are those of that frame;
    - running the stopped game again only logs, creates the clock and calls
      [pygame.quit()]: it never draws again. *)
Theorem quit_ends_loop_after_current_frame
    (self : MyGame) (w : World) (k fuel : nat) :
  running self = true ->
  (forall i, (i < k)%nat -> has_quit (pending w i) = false) ->
  has_quit (pending w k) = true ->
  (k < fuel)%nat ->
  exists self' w',
    run fuel self w = (Some self', w')
    /\ running self' = false
    /\ frames_after_quit (trace_since w w') = Some 1%nat
    /\ count_frames (trace_since w w') = S k
    /\ (exists d0, trace_since w w' = d0 ++ [PygameQuit])
    /\ (forall fuel' w2,
          fst (run fuel' self' w2) = Some self'
          /\ count_frames (trace_since w2 (snd (run fuel' self' w2))) = O)
    /\ (let start :=
          iterate k self
            (snd ((call (LoggerInfo "Running MyGame") ;;; call TimeClock) w)) in
        let batch := pending w k in
        let w1 := snd (pygame_event_get (snd start)) in
        let handled := handle_events batch (fst start) w1 in
        let now := clock (snd handled) O in
        pending (snd start) O = batch
        /\ self' = fst (_update_circles (fst handled) (snd handled))
        /\ (forall c, In c (clicks self') <->
                      In c (clicks (fst handled))
                      /\ young now (circle_lifetime self) c)
        /\ click_count self' = click_count (fst handled)
        /\ (forall before after,
              batch = before ++ QUIT :: after ->
              let reached := handle_events before (fst start) w1 in
              handled =
              handle_events after (set_running false (fst reached)) (snd reached)
              /\ (has_right_click after = false ->
                  click_count self' =
                  click_count (fst reached) + Z.of_nat (count_left_clicks after)
                  /\ clicks (fst handled) =
                     clicks (fst reached)
                     ++ left_click_markers after (clock (snd reached))))
        /\ (exists d,
              trace w' =
              trace (snd start)
              ++ EventGet batch :: d
              ++ TimeTime now :: frame_of self' ++ [ClockTick 60; PygameQuit]
              /\ forallb is_time_or_log d = true
              /\ filter is_draw_call
                   (EventGet batch :: d
                    ++ TimeTime now :: frame_of self' ++ [ClockTick 60; PygameQuit])
                 = frame_of self')
        /\ (forall fuel' w2,
              run fuel' self' w2 =
              (Some self',
               mkWorld (clock w2) (pending w2)
                 (trace w2 ++ [LoggerInfo "Running MyGame"; TimeClock; PygameQuit])))).
Proof.
  intros Hrun Hbefore Hquit Hfuel.
  set (w0 := snd ((call (LoggerInfo "Running MyGame") ;;; call TimeClock) w)).
  assert (Hrun_eq : forall fuel' g w2,
            run fuel' g w2 =
            run_loop fuel' g
              (mkWorld (clock w2) (pending w2)
                 ((trace w2 ++ [LoggerInfo "Running MyGame"]) ++ [TimeClock])))
    by reflexivity.
  assert (Hw0 : w0 = mkWorld (clock w) (pending w)
                       ((trace w ++ [LoggerInfo "Running MyGame"]) ++ [TimeClock]))
    by reflexivity.
  assert (Hstopped : forall g fuel' w2, running g = false ->
            run fuel' g w2 =
            (Some g,
             mkWorld (clock w2) (pending w2)
               (trace w2 ++ [LoggerInfo "Running MyGame"; TimeClock; PygameQuit]))).
  { intros g fuel' w2 Hg; rewrite Hrun_eq, run_loop_stopped by exact Hg.
    cbn [clock pending trace].
    repeat (rewrite <- app_assoc; cbn [app]); reflexivity. }
  destruct (run_loop_until_quit k self w0 fuel Hrun Hbefore Hquit Hfuel)
    as (self' & w' & d & Hloop & Hstop & Htr & Hfq & Hcf & d0 & Hd0).
  exists self', w'.
  assert (Hsince : trace_since w w' = LoggerInfo "Running MyGame" :: TimeClock :: d).
  { unfold trace_since; rewrite Htr, Hw0; cbn [trace].
    rewrite <- !app_assoc; apply skipn_app_exact. }
  rewrite Hsince.
  split; [rewrite Hrun_eq, <- Hw0; exact Hloop|].
  split; [exact Hstop|].
  split; [exact Hfq|].
  split; [exact Hcf|].
  split; [exists (LoggerInfo "Running MyGame" :: TimeClock :: d0); rewrite Hd0; reflexivity|].
  split.
  { intros fuel' w2; rewrite (Hstopped self' fuel' w2 Hstop).
    split; [reflexivity|].
    unfold trace_since; cbn [snd trace]; rewrite skipn_app_exact; reflexivity. }
  cbv zeta.
  destruct (run_loop_reaches k self w0 fuel Hrun Hbefore) as (Hreach & Hrunk & Hpk & Hcfg);
    [lia|].
  set (self_k := fst (iterate k self w0)) in *.
  set (w_k := snd (iterate k self w0)) in *.
  destruct (fuel - k)%nat as [|f] eqn:Hf; [lia|].
  rewrite Hreach, (run_loop_unfold_running f self_k w_k Hrunk) in Hloop.
  assert (Hb : pending w_k O = pending w k).
  { rewrite Hpk, Nat.add_0_r; reflexivity. }
  destruct (iteration_effect self_k w_k) as (_ & _ & _ & _ & _ & Hr).
  rewrite Hrunk, Hb, Hquit in Hr; cbn [andb negb] in Hr.
  rewrite (run_loop_stopped f _ _ Hr) in Hloop.
  pose proof (iteration_unfold self_k w_k) as Hit; cbv zeta in Hit.
  rewrite Hb in Hit.
  set (w1 := snd (pygame_event_get w_k)) in *.
  set (handled := handle_events (pending w k) self_k w1) in *.
  destruct (handle_events_world (pending w k) self_k w1) as (de & Hw & Hde & _).
  fold handled in Hw.
  remember (fst (_update_circles (fst handled) (snd handled))) as self2 eqn:Hself2.
  rewrite Hit in Hloop; cbn [fst snd clock pending trace] in Hloop.
  injection Hloop as Hself Hw'.
  subst self' self2.
  assert (Htrh : trace (snd handled) = trace w_k ++ EventGet (pending w k) :: de).
  { rewrite Hw; cbn [trace].
    change (trace w1) with (trace w_k ++ [EventGet (pending w_k O)]).
    rewrite Hb, <- app_assoc; reflexivity. }
  assert (Hlife : circle_lifetime (fst handled) = circle_lifetime self).
  { unfold handled; rewrite handle_events_as_steps.
    destruct (steps_same_configuration (map HandleEvent (pending w k)) self_k w1)
      as (_ & _ & Hl1 & _).
    destruct Hcfg as (_ & _ & Hl2 & _).
    rewrite Hl1; exact Hl2. }
  split; [exact Hb|].
  split; [reflexivity|].
  split.
  { intro c; rewrite update_circles_unfold.
    cbn [fst clicks set_clicks]; rewrite filter_In, survives_young, Hlife.
    reflexivity. }
  split.
  { rewrite update_circles_unfold; reflexivity. }
  split.
  { intros before after Hsplit; cbv zeta.
    assert (Hdec : handled =
                   handle_events after
                     (set_running false (fst (handle_events before self_k w1)))
                     (snd (handle_events before self_k w1))).
    { unfold handled; rewrite Hsplit; unfold handle_events.
      rewrite for_each_app, for_each_cons; reflexivity. }
    split; [exact Hdec|].
    intro Hno.
    destruct (handle_events_without_reset after Hno
                (set_running false (fst (handle_events before self_k w1)))
                (snd (handle_events before self_k w1))) as [Hcount Hclicks].
    rewrite <- Hdec in Hcount, Hclicks.
    split; [|exact Hclicks].
    rewrite update_circles_unfold; cbn [fst click_count set_clicks].
    rewrite Hcount; reflexivity. }
  split.
  { exists de.
    split; [|split; [exact Hde|]].
    - rewrite <- Hw'; cbn [trace]; rewrite Htrh; unfold frame_of.
      repeat (rewrite <- app_assoc; cbn [app]); reflexivity.
    - cbn [filter is_draw_call].
      rewrite filter_app, (filter_draw_quiet de Hde); cbn [app filter is_draw_call].
      rewrite filter_app, filter_draw_frame; cbn [filter is_draw_call].
      apply app_nil_r. }
  intros fuel' w2; apply Hstopped, Hstop.
Qed.

Lemma quit_ends_loop_after_current_frame_witness :
  running fresh_game = true /\
  has_quit (pending quit_mid_batch 0) = false /\
  has_quit (pending quit_mid_batch 1) = true /\
  option_map click_count (fst (run 2 fresh_game quit_mid_batch)) = Some 3 /\
  option_map (fun g => map click_pos (clicks g)) (fst (run 2 fresh_game quit_mid_batch))
  = Some [(1, 1); (2, 2)] /\
  exists self' w',
    run 2 fresh_game quit_mid_batch = (Some self', w')
    /\ running self' = false
    /\ frames_after_quit (trace_since quit_mid_batch w') = Some 1%nat
    /\ count_frames (trace_since quit_mid_batch w') = 2%nat
    /\ (exists d0, trace_since quit_mid_batch w' = d0 ++ [PygameQuit])
    /\ (forall fuel' w2,
          fst (run fuel' self' w2) = Some self'
          /\ count_frames (trace_since w2 (snd (run fuel' self' w2))) = O)
    /\ (let start :=
          iterate 1 fresh_game
            (snd ((call (LoggerInfo "Running MyGame") ;;; call TimeClock)
                    quit_mid_batch)) in
        let batch := pending quit_mid_batch 1 in
        let w1 := snd (pygame_event_get (snd start)) in
        let handled := handle_events batch (fst start) w1 in
        let now := clock (snd handled) O in
        pending (snd start) O = batch
        /\ self' = fst (_update_circles (fst handled) (snd handled))
        /\ (forall c, In c (clicks self') <->
                      In c (clicks (fst handled))
                      /\ young now (circle_lifetime fresh_game) c)
        /\ click_count self' = click_count (fst handled)
        /\ (forall before after,
              batch = before ++ QUIT :: after ->
              let reached := handle_events before (fst start) w1 in
              handled =
              handle_events after (set_running false (fst reached)) (snd reached)
              /\ (has_right_click after = false ->
                  click_count self' =
                  click_count (fst reached) + Z.of_nat (count_left_clicks after)
                  /\ clicks (fst handled) =
                     clicks (fst reached)
                     ++ left_click_markers after (clock (snd reached))))
        /\ (exists d,
              trace w' =
              trace (snd start)
              ++ EventGet batch :: d
              ++ TimeTime now :: frame_of self' ++ [ClockTick 60; PygameQuit]
              /\ forallb is_time_or_log d = true
              /\ filter is_draw_call
                   (EventGet batch :: d
                    ++ TimeTime now :: frame_of self' ++ [ClockTick 60; PygameQuit])
                 = frame_of self')
        /\ (forall fuel' w2,
              run fuel' self' w2 =
              (Some self',
               mkWorld (clock w2) (pending w2)
                 (trace w2 ++ [LoggerInfo "Running MyGame"; TimeClock; PygameQuit])))).
Proof.
  split; [reflexivity|].
  split; [reflexivity|].
  split; [reflexivity|].
  split; [vm_compute; reflexivity|].
  split; [vm_compute; reflexivity|].
  apply (quit_ends_loop_after_current_frame fresh_game quit_mid_batch 1 2).
  - reflexivity.
  - intros [|i] Hi; [reflexivity|lia].
  - reflexivity.
  - lia.
Defined.
